(** * terraform-provider-tfsync: the [tfsync_s3_object] resource

    A shallow embedding of [internal/provider/s3_object_resource.go] and
    [internal/provider/tags.go]: the resource handlers Create, Read, Update
    and Delete, the helpers they call, and the Go standard-library functions
    they rely on ([crypto/sha256], [encoding/hex], [net/url], [strings],
    [errors]).  Calls to the two remote clients (go-tfe and the AWS S3 SDK)
    are events of a small free monad; running a handler against a world
    yields the handler's response and the trace of remote calls it made. *)

From Stdlib Require Import ZArith Lia List Ascii String.
From Stdlib Require Import Init.Byte.
From stdpp Require Import gmap strings list fin_maps finite.

Local Open Scope Z_scope.

(** ** Bytes and Go strings

    A Go [[]byte] is a [list byte]; a Go [string] is an immutable byte
    sequence, here a [string] (a list of 8-bit [ascii] characters). *)

Definition byte_to_Z (b : byte) : Z := Z.of_N (Byte.to_N b).

Definition byte_of_Z (z : Z) : byte :=
  match Byte.of_N (Z.to_N (z mod 256)) with
  | Some b => b
  | None => x00
  end.

Definition bytes_of_string (s : string) : list byte :=
  List.map byte_of_ascii (list_ascii_of_string s).

(** ** crypto/sha256 (FIPS 180-4), on 32-bit words held in [Z] *)

Module sha256.

Definition w32 (x : Z) : Z := x mod 2 ^ 32.

Definition add32 (x y : Z) : Z := w32 (x + y).

Definition rotr (n x : Z) : Z :=
  Z.lor (Z.shiftr x n) (w32 (Z.shiftl x (32 - n))).

Definition not32 (x : Z) : Z := Z.lxor x 4294967295.

Definition Ch (x y z : Z) : Z := Z.lxor (Z.land x y) (Z.land (not32 x) z).
Definition Maj (x y z : Z) : Z :=
  Z.lxor (Z.lxor (Z.land x y) (Z.land x z)) (Z.land y z).
Definition bsig0 (x : Z) : Z := Z.lxor (Z.lxor (rotr 2 x) (rotr 13 x)) (rotr 22 x).
Definition bsig1 (x : Z) : Z := Z.lxor (Z.lxor (rotr 6 x) (rotr 11 x)) (rotr 25 x).
Definition ssig0 (x : Z) : Z := Z.lxor (Z.lxor (rotr 7 x) (rotr 18 x)) (Z.shiftr x 3).
Definition ssig1 (x : Z) : Z := Z.lxor (Z.lxor (rotr 17 x) (rotr 19 x)) (Z.shiftr x 10).

(** The constants of FIPS 180-4, the table [_K] and the words
    [init0 .. init7] of the Go package, are the first 32 bits of the
    fractional parts of roots of the first primes: cube roots of the first 64
    primes for the round constants (section 4.2.2), square roots of the first
    8 for the initial hash value (section 5.3.3). *)
Definition is_prime (n : nat) : bool :=
  forallb (fun d => negb (Nat.eqb (Nat.modulo n d) 0)) (seq 2 (n - 2)).

Definition primes (count : nat) : list Z :=
  List.map Z.of_nat (firstn count (List.filter is_prime (seq 2 310))).

(** The largest [r] below [2 ^ (i + 1)] with [r ^ k <= n], bit by bit. *)
Fixpoint root_bits (k n : Z) (i : nat) (r : Z) : Z :=
  let r' := Z.lor r (Z.shiftl 1 (Z.of_nat i)) in
  let r := if r' ^ k <=? n then r' else r in
  match i with
  | O => r
  | S i' => root_bits k n i' r
  end.

Definition root_fraction (k p : Z) : Z :=
  w32 (root_bits k (p * 2 ^ (32 * k)) 40 0).

Definition _K : list Z :=
  Eval vm_compute in List.map (root_fraction 3) (primes 64).

(** The eight chaining words [h[0..7]] of the Go [digest] struct. *)
Record digest : Type := mkDigest {
  h0 : Z; h1 : Z; h2 : Z; h3 : Z; h4 : Z; h5 : Z; h6 : Z; h7 : Z
}.

Definition init : digest :=
  Eval vm_compute in
    match List.map (root_fraction 2) (primes 8) with
    | [a; b; c; d; e; f; g; h] => mkDigest a b c d e f g h
    | _ => mkDigest 0 0 0 0 0 0 0 0
    end.

(** Big-endian load of the 32-bit word starting at [p]. *)
Definition be32 (p : list byte) : Z :=
  match p with
  | a :: b :: c :: d :: _ =>
      Z.lor (Z.lor (Z.shiftl (byte_to_Z a) 24) (Z.shiftl (byte_to_Z b) 16))
            (Z.lor (Z.shiftl (byte_to_Z c) 8) (byte_to_Z d))
  | _ => 0
  end.

(** Message schedule: [w[i]] for [i < 16] from the block, the remaining
    48 words from the recurrence.  The schedule is built newest first. *)
Fixpoint first16 (n : nat) (p : list byte) (acc : list Z) : list Z :=
  match n with
  | O => acc
  | S n' => first16 n' (skipn 4 p) (be32 p :: acc)
  end.

Fixpoint extend (n : nat) (acc : list Z) : list Z :=
  match n with
  | O => acc
  | S n' =>
      let v1 := nth 1 acc 0 in
      let v2 := nth 14 acc 0 in
      let t := add32 (add32 (add32 (ssig1 v1) (nth 6 acc 0)) (ssig0 v2))
                     (nth 15 acc 0) in
      extend n' (t :: acc)
  end.

Definition schedule (p : list byte) : list Z :=
  rev (extend 48 (first16 16 p [])).

Definition round (d : digest) (kw : Z * Z) : digest :=
  let '(mkDigest a b c d0 e f g h) := d in
  let t1 := add32 (add32 (add32 (add32 h (bsig1 e)) (Ch e f g)) (fst kw)) (snd kw) in
  let t2 := add32 (bsig0 a) (Maj a b c) in
  mkDigest (add32 t1 t2) a b c (add32 d0 t1) e f g.

(** [blockGeneric] on one 64-byte chunk. *)
Definition block (d : digest) (p : list byte) : digest :=
  let r := fold_left round (combine _K (schedule p)) d in
  mkDigest (add32 (h0 d) (h0 r)) (add32 (h1 d) (h1 r))
           (add32 (h2 d) (h2 r)) (add32 (h3 d) (h3 r))
           (add32 (h4 d) (h4 r)) (add32 (h5 d) (h5 r))
           (add32 (h6 d) (h6 r)) (add32 (h7 d) (h7 r)).

Fixpoint blocks (n : nat) (d : digest) (p : list byte) : digest :=
  match n with
  | O => d
  | S n' => blocks n' (block d (firstn 64 p)) (skipn 64 p)
  end.

Definition be_bytes (n : nat) (x : Z) : list byte :=
  List.map (fun i => byte_of_Z (Z.shiftr x (8 * Z.of_nat i))) (rev (seq 0 n)).

(** Padding of [checkSum]: a 0x80 byte, zeros up to 56 mod 64, then the
    message length in bits as a big-endian uint64. *)
Definition padded (msg : list byte) : list byte :=
  let len := Z.of_nat (length msg) in
  let zeros := Z.to_nat ((55 - len) mod 64) in
  msg ++ x80 :: repeat x00 zeros ++ be_bytes 8 ((len * 8) mod 2 ^ 64).

Definition put32 (x : Z) : list byte :=
  [ byte_of_Z (Z.shiftr x 24); byte_of_Z (Z.shiftr x 16);
    byte_of_Z (Z.shiftr x 8); byte_of_Z x ].

Definition digest_bytes (d : digest) : list byte :=
  put32 (h0 d) ++ put32 (h1 d) ++ put32 (h2 d) ++ put32 (h3 d) ++
  put32 (h4 d) ++ put32 (h5 d) ++ put32 (h6 d) ++ put32 (h7 d).

(** [sha256.Sum256(data)]: the 32-byte checksum. *)
Definition Sum256 (data : list byte) : list byte :=
  let p := padded data in
  digest_bytes (blocks (Nat.div (length p) 64) init p).

End sha256.

(** ** encoding/hex *)

Module hex.

Definition hextable : string := "0123456789abcdef".

Definition digit (n : Z) : ascii :=
  match String.get (Z.to_nat n) hextable with
  | Some c => c
  | None => "0"%char
  end.

(** [hex.EncodeToString]: two lowercase digits per byte, high nibble first. *)
Fixpoint EncodeToString (src : list byte) : string :=
  match src with
  | [] => EmptyString
  | v :: rest =>
      String (digit (Z.shiftr (byte_to_Z v) 4))
        (String (digit (Z.land (byte_to_Z v) 15)) (EncodeToString rest))
  end.

End hex.

Local Open Scope string_scope.
Local Open Scope list_scope.

(** ** strings and net/url *)

Definition ascii_to_Z (c : ascii) : Z := Z.of_N (N_of_ascii c).
Definition ascii_of_Z (z : Z) : ascii := ascii_of_N (Z.to_N z).

Module strings.

(** [strings.Join(elems, sep)]. *)
Fixpoint Join (elems : list string) (sep : string) : string :=
  match elems with
  | [] => ""
  | [e] => e
  | e :: rest => e +:+ sep +:+ Join rest sep
  end.

(** [strings.Split(s, sep)] for a one-byte separator: the pieces between
    the separators, a single (possibly empty) piece when there is none. *)
Fixpoint Split (s : string) (sep : ascii) : list string :=
  match s with
  | EmptyString => [""]
  | String c rest =>
      if Ascii.eqb c sep then "" :: Split rest sep
      else match Split rest sep with
           | piece :: more => String c piece :: more
           | [] => [String c ""]
           end
  end.

End strings.

Module url.

Definition upperhex : string := "0123456789ABCDEF".

Definition upperdigit (n : Z) : ascii :=
  match String.get (Z.to_nat n) upperhex with
  | Some c => c
  | None => "0"%char
  end.

Definition between (lo hi c : ascii) : bool :=
  ((ascii_to_Z lo <=? ascii_to_Z c) && (ascii_to_Z c <=? ascii_to_Z hi))%Z.

(** [shouldEscape(c, encodeQueryComponent)]: the unreserved characters
    of RFC 3986 section 2.3 pass, the reserved ones and everything else are
    escaped in a query component. *)
Definition shouldEscape (c : ascii) : bool :=
  if between "a" "z" c || between "A" "Z" c || between "0" "9" c then false
  else if Ascii.eqb c "-" || Ascii.eqb c "_" || Ascii.eqb c "." || Ascii.eqb c "~"
  then false
  else true.

(** [url.QueryEscape(s)], that is [escape(s, encodeQueryComponent)]. *)
Fixpoint QueryEscape (s : string) : string :=
  match s with
  | EmptyString => ""
  | String c rest =>
      if Ascii.eqb c " " then String "+" (QueryEscape rest)
      else if shouldEscape c then
        String "%" (String (upperdigit (Z.shiftr (ascii_to_Z c) 4))
          (String (upperdigit (Z.land (ascii_to_Z c) 15)) (QueryEscape rest)))
      else String c (QueryEscape rest)
  end.

Definition ishex (c : ascii) : bool :=
  between "0" "9" c || between "a" "f" c || between "A" "F" c.

Definition unhex (c : ascii) : Z :=
  if between "0" "9" c then (ascii_to_Z c - 48)%Z
  else if between "a" "f" c then (ascii_to_Z c - 97 + 10)%Z
  else if between "A" "F" c then (ascii_to_Z c - 65 + 10)%Z
  else 0%Z.

(** [url.QueryUnescape(s)]: [None] stands for the [EscapeError] returned
    on a percent sign that is not followed by two hex digits. *)
Fixpoint QueryUnescape (s : string) : option string :=
  match s with
  | EmptyString => Some ""
  | String c rest =>
      if Ascii.eqb c "%" then
        match rest with
        | String a (String b rest') =>
            if ishex a && ishex b then
              String (ascii_of_Z (Z.lor (Z.shiftl (unhex a) 4) (unhex b)))
                <$> QueryUnescape rest'
            else None
        | _ => None
        end
      else if Ascii.eqb c "+" then String " " <$> QueryUnescape rest
      else String c <$> QueryUnescape rest
  end.

End url.

(** ** tags.go *)

(** One element of [tagPairs]: [url.QueryEscape(k)], an equals sign,
    [url.QueryEscape(v)]. *)
Definition tag_pair (kv : string * string) : string :=
  url.QueryEscape kv.1 +:+ "=" +:+ url.QueryEscape kv.2.

(** The body of [newTags] for one iteration order of the map: Go leaves the
    order of [for k, v := range tags] unspecified, so the order in which
    the entries are visited is an argument of [newTags_range]. *)
Definition newTags_range (entries : list (string * string)) : string :=
  strings.Join (List.map tag_pair entries) "&".

(** [entries] is an order in which [range tags] may visit the map: every
    entry exactly once. *)
Definition range_order (tags : gmap string string)
    (entries : list (string * string)) : Prop :=
  entries ≡ₚ map_to_list tags.

(** [newTags(tags)], with the iteration order fixed to that of
    [map_to_list]: one of the orders [range] may take.  What is proved of
    tag strings below is proved of [newTags_range] for every such order, or
    does not depend on the order. *)
Definition newTags (tags : gmap string string) : string :=
  newTags_range (map_to_list tags).

(** The reader of a tag string that the specification describes: split on
    ['&'], split every piece on ['='], unescape both halves. *)
Definition parse_pair (piece : string) : option (string * string) :=
  match strings.Split piece "=" with
  | [k; v] =>
      k' ← url.QueryUnescape k;
      v' ← url.QueryUnescape v;
      Some (k', v')
  | _ => None
  end.

Definition parse_tags (s : string) : option (list (string * string)) :=
  mapM parse_pair (strings.Split s "&").

(** ** Go errors *)

(** An [error] value: the sentinel [tfe.ErrResourceNotFound], any other
    leaf error, or an error that wraps another one ([Unwrap] returns
    [err]). *)
Inductive error : Type :=
  | ErrResourceNotFound
  | errorString (s : string)
  | wrapError (msg : string) (err : error).

#[global] Instance error_eq_dec : EqDecision error.
Proof. solve_decision. Defined.

Module errors.

(** [err.Error()]. *)
Definition Error (err : error) : string :=
  match err with
  | ErrResourceNotFound => "resource not found"
  | errorString s => s
  | wrapError msg _ => msg
  end.

(** [errors.Is(err, target)]: [target] is found along the [Unwrap]
    chain of [err]. *)
Fixpoint Is (err target : error) : bool :=
  if decide (err = target) then true
  else match err with
       | wrapError _ inner => Is inner target
       | _ => false
       end.

End errors.

(** ** terraform-plugin-framework: attribute values and diagnostics *)

Module types.

(** [types.String], [types.Bool]: null, unknown, or a known value. *)
Inductive String : Type :=
  | StringNull
  | StringUnknown
  | StringValue (s : string).

Inductive Bool : Type :=
  | BoolNull
  | BoolUnknown
  | BoolValue (b : bool).

(** [types.Map] with [ElementType: types.StringType]. *)
Inductive Map : Type :=
  | MapNull
  | MapUnknown
  | MapValue (elements : gmap string String).

(** [ValueString]: the empty string for null and unknown. *)
Definition ValueString (v : String) : string :=
  match v with
  | StringValue s => s
  | _ => ""
  end.

(** [ValueBool]: [false] for null and unknown. *)
Definition ValueBool (v : Bool) : bool :=
  match v with
  | BoolValue b => b
  | _ => false
  end.

End types.

Module diag.

Inductive Severity : Type := SeverityError | SeverityWarning.

Record Diagnostic : Type := mkDiagnostic {
  severity : Severity;
  Summary : string;
  Detail : string
}.

#[global] Instance Severity_eq_dec : EqDecision Severity.
Proof. solve_decision. Defined.

#[global] Instance Diagnostic_eq_dec : EqDecision Diagnostic.
Proof. solve_decision. Defined.

Definition Diagnostics : Type := list Diagnostic.

(** [Contains]: some diagnostic already present is [Equal] to [d]. *)
Definition Contains (diags : Diagnostics) (d : Diagnostic) : bool :=
  existsb (fun d' => bool_decide (d' = d)) diags.

(** [Diagnostics.Append]: a diagnostic equal to one already present is
    skipped. *)
Fixpoint Append (diags : Diagnostics) (new : Diagnostics) : Diagnostics :=
  match new with
  | [] => diags
  | d :: rest =>
      if Contains diags d then Append diags rest
      else Append (diags ++ [d]) rest
  end.

Definition AddError (diags : Diagnostics) (summary detail : string) : Diagnostics :=
  Append diags [mkDiagnostic SeverityError summary detail].

Definition AddWarning (diags : Diagnostics) (summary detail : string) : Diagnostics :=
  Append diags [mkDiagnostic SeverityWarning summary detail].

Definition isError (d : Diagnostic) : bool :=
  match severity d with SeverityError => true | SeverityWarning => false end.

Definition isWarning (d : Diagnostic) : bool :=
  match severity d with SeverityWarning => true | SeverityError => false end.

Definition HasError (diags : Diagnostics) : bool := existsb isError diags.

Definition Warnings (diags : Diagnostics) : Diagnostics := List.filter isWarning diags.

End diag.

(** ** The remote clients *)

Module tfe.

(** A configured [*tfe.Client]. *)
Inductive Client : Type := NewClient.

Record StateVersion : Type := mkStateVersion { DownloadURL : string }.

End tfe.

Module s3.

(** A configured [*s3.Client]. *)
Inductive Client : Type := NewFromConfig.

Inductive ChecksumAlgorithm : Type := ChecksumAlgorithmSha256.
Inductive ServerSideEncryption : Type := ServerSideEncryptionAwsKms.

Record GetObjectInput : Type := mkGetObjectInput {
  GetBucket : string;
  GetKey : string
}.

(** The response body as [io.ReadAll] finds it: the bytes that can be
    read and the error, if any, that ends the stream early. *)
Record GetObjectOutput : Type := mkGetObjectOutput {
  Body : list byte;
  BodyErr : option error
}.

Record PutObjectInput : Type := mkPutObjectInput {
  PutBucket : string;
  PutKey : string;
  PutBody : list byte;
  ContentLength : Z;
  ContentType : string;
  PutChecksumAlgorithm : ChecksumAlgorithm;
  PutServerSideEncryption : option ServerSideEncryption;
  SSEKMSKeyId : option string;
  Tagging : option string
}.

Record DeleteObjectInput : Type := mkDeleteObjectInput {
  DeleteBucket : string;
  DeleteKey : string
}.

End s3.

(** [io.ReadAll(resp.Body)]. *)
Definition io_ReadAll (resp : s3.GetObjectOutput) : list byte * option error :=
  (s3.Body resp, s3.BodyErr resp).

(** ** Remote calls as events *)

Inductive Event : Type -> Type :=
  | ReadCurrent (workspaceID : string) : Event (tfe.StateVersion + error)
  | Download (u : string) : Event (list byte + error)
  | GetObject (input : s3.GetObjectInput) : Event (s3.GetObjectOutput + error)
  | PutObject (input : s3.PutObjectInput) : Event (option error)
  | DeleteObject (input : s3.DeleteObjectInput) : Event (option error).

(** A finished remote call: the request and what the service answered. *)
Inductive Call : Type :=
  | CallReadCurrent (workspaceID : string) (res : tfe.StateVersion + error)
  | CallDownload (u : string) (res : list byte + error)
  | CallGetObject (input : s3.GetObjectInput) (res : s3.GetObjectOutput + error)
  | CallPutObject (input : s3.PutObjectInput) (res : option error)
  | CallDeleteObject (input : s3.DeleteObjectInput) (res : option error).

Definition record_call {R : Type} (e : Event R) : R -> Call :=
  match e in Event R0 return R0 -> Call with
  | ReadCurrent ws => CallReadCurrent ws
  | Download u => CallDownload u
  | GetObject i => CallGetObject i
  | PutObject i => CallPutObject i
  | DeleteObject i => CallDeleteObject i
  end.

(** Programs that perform remote calls. *)
Inductive Prog (A : Type) : Type :=
  | Ret (a : A)
  | Vis {R : Type} (e : Event R) (k : R -> Prog A).

Arguments Ret {A} a.
Arguments Vis {A R} e k.

Fixpoint bind {A B : Type} (p : Prog A) (f : A -> Prog B) : Prog B :=
  match p with
  | Ret a => f a
  | Vis e k => Vis e (fun r => bind (k r) f)
  end.

#[global] Instance Prog_ret : MRet Prog := @Ret.
#[global] Instance Prog_bind : MBind Prog := fun A B f p => bind p f.

Definition call {R : Type} (e : Event R) : Prog R := Vis e Ret.

(** A world answers every remote call and moves to its next state. *)
Definition Responder (World : Type) : Type :=
  forall R : Type, Event R -> World -> R * World.

(** Run [p] from world [w]: the result, the calls made in order, and the
    world afterwards. *)
Fixpoint exec {World A : Type} (respond : Responder World)
    (p : Prog A) (w : World) : A * list Call * World :=
  match p with
  | Ret a => (a, [], w)
  | Vis e k =>
      let '(r, w1) := respond _ e w in
      let '(a, tr, w2) := exec respond (k r) w1 in
      (a, record_call e r :: tr, w2)
  end.

Definition is_tfe_call (c : Call) : bool :=
  match c with
  | CallReadCurrent _ _ | CallDownload _ _ => true
  | _ => false
  end.

Definition is_s3_call (c : Call) : bool := negb (is_tfe_call c).

Definition is_put (c : Call) : bool :=
  match c with CallPutObject _ _ => true | _ => false end.

Definition is_get (c : Call) : bool :=
  match c with CallGetObject _ _ => true | _ => false end.

Definition is_delete (c : Call) : bool :=
  match c with CallDeleteObject _ _ => true | _ => false end.

Definition puts (tr : list Call) : list Call := List.filter is_put tr.
Definition gets (tr : list Call) : list Call := List.filter is_get tr.
Definition deletes (tr : list Call) : list Call := List.filter is_delete tr.
Definition tfe_calls (tr : list Call) : list Call := List.filter is_tfe_call tr.
Definition s3_calls (tr : list Call) : list Call := List.filter is_s3_call tr.

(** ** s3_object_resource.go *)

Record S3ObjectResource : Type := mkS3ObjectResource {
  softDelete : bool;
  tfeClient : option tfe.Client;
  s3Client : option s3.Client
}.

Record S3ObjectResourceModel : Type := mkS3ObjectResourceModel {
  Id : types.String;
  WorkspaceId : types.String;
  Bucket : types.String;
  Key : types.String;
  StateContentsSha256 : types.String;
  BucketContentsSha256 : types.String;
  KmsKeyId : types.String;
  IgnoreEmpty : types.Bool;
  Ignored : types.Bool;
  SoftDelete : types.Bool;
  Tags : types.Map
}.

(** Assignments to the fields the handlers write. *)
Definition set_Id (v : types.String) (d : S3ObjectResourceModel) :=
  mkS3ObjectResourceModel v (WorkspaceId d) (Bucket d) (Key d)
    (StateContentsSha256 d) (BucketContentsSha256 d) (KmsKeyId d)
    (IgnoreEmpty d) (Ignored d) (SoftDelete d) (Tags d).

Definition set_Ignored (v : types.Bool) (d : S3ObjectResourceModel) :=
  mkS3ObjectResourceModel (Id d) (WorkspaceId d) (Bucket d) (Key d)
    (StateContentsSha256 d) (BucketContentsSha256 d) (KmsKeyId d)
    (IgnoreEmpty d) v (SoftDelete d) (Tags d).

Definition set_StateContentsSha256 (v : types.String) (d : S3ObjectResourceModel) :=
  mkS3ObjectResourceModel (Id d) (WorkspaceId d) (Bucket d) (Key d)
    v (BucketContentsSha256 d) (KmsKeyId d)
    (IgnoreEmpty d) (Ignored d) (SoftDelete d) (Tags d).

Definition set_BucketContentsSha256 (v : types.String) (d : S3ObjectResourceModel) :=
  mkS3ObjectResourceModel (Id d) (WorkspaceId d) (Bucket d) (Key d)
    (StateContentsSha256 d) v (KmsKeyId d)
    (IgnoreEmpty d) (Ignored d) (SoftDelete d) (Tags d).

(** The host side of a handler call.  A plan or state is held decoded:
    every field of [S3ObjectResourceModel] is a framework value type that
    takes null and unknown, so [Plan.Get], [State.Get] and [State.Set]
    report no diagnostics for this schema. *)
Module resource.

(** What a handler reads of its request: [req.Plan] (Create, Update) and
    [req.State] (Read, Delete), the latter named [PriorState] here. *)
Record Request : Type := mkRequest {
  Plan : S3ObjectResourceModel;
  PriorState : S3ObjectResourceModel
}.

(** [resp.State] is what the host will persist: [None] is the null
    state a Create response starts with. *)
Record Response : Type := mkResponse {
  State : option S3ObjectResourceModel;
  Diagnostics : diag.Diagnostics
}.

(** The response a handler is given: no diagnostics yet. *)
Definition newResponse (st : option S3ObjectResourceModel) : Response :=
  mkResponse st [].

(** [resp.Diagnostics.Append(ds...)]. *)
Definition Append (resp : Response) (ds : diag.Diagnostics) : Response :=
  mkResponse (State resp) (diag.Append (Diagnostics resp) ds).

Definition AddWarning (resp : Response) (summary detail : string) : Response :=
  mkResponse (State resp) (diag.AddWarning (Diagnostics resp) summary detail).

Definition HasError (resp : Response) : bool :=
  diag.HasError (Diagnostics resp).

End resource.

(** [req.Plan.Get(ctx, &data)] and [req.State.Get(ctx, &data)]. *)
Definition tfsdk_Get (raw : S3ObjectResourceModel)
    : S3ObjectResourceModel * diag.Diagnostics :=
  (raw, []).

(** [resp.State.Set(ctx, &data)]: the new state and the diagnostics. *)
Definition tfsdk_Set (data : S3ObjectResourceModel)
    : option S3ObjectResourceModel * diag.Diagnostics :=
  (Some data, []).

Definition State_Set (resp : resource.Response) (data : S3ObjectResourceModel)
    : resource.Response :=
  let '(st, d) := tfsdk_Set data in
  resource.Append (resource.mkResponse st (resource.Diagnostics resp)) d.

(** [m.ElementsAs(ctx, &tags, true)] into a [map[string]string]: with
    [allowUnhandled] set, a null or unknown map gives the nil map and a null
    or unknown element the empty string. *)
Definition ElementsAs (m : types.Map) : gmap string string * diag.Diagnostics :=
  match m with
  | types.MapValue elements => (types.ValueString <$> elements, [])
  | _ => (∅, [])
  end.

Definition sha256Contents (contents : list byte) : types.String :=
  let hash := sha256.Sum256 contents in
  let hashString := hex.EncodeToString hash in
  types.StringValue hashString.

(** [fmt.Sprintf("%s/%s/%s", ...)] of the three identifying fields. *)
Definition newS3ObjectResourceID (data : S3ObjectResourceModel) : types.String :=
  types.StringValue
    (types.ValueString (WorkspaceId data) +:+ "/" +:+
     types.ValueString (Bucket data) +:+ "/" +:+
     types.ValueString (Key data)).

Definition getStateFile (client : tfe.Client) (workspaceId : string)
    (ignoreEmpty : bool) : Prog (list byte * diag.Diagnostics * bool) :=
  r ← call (ReadCurrent workspaceId);
  match r with
  | inr err =>
      if ignoreEmpty && errors.Is err ErrResourceNotFound then
        Ret ([], [], true)
      else
        Ret ([], diag.AddError [] "tfe client"
                   ("failed to get state version: " +:+ errors.Error err), false)
  | inl ver =>
      r ← call (Download (tfe.DownloadURL ver));
      match r with
      | inr err =>
          Ret ([], diag.AddError [] "tfe client"
                     ("failed to download state: " +:+ errors.Error err), false)
      | inl state => Ret (state, [], false)
      end
  end.

Definition getS3ObjectContents (client : s3.Client) (bucket key : string)
    : Prog (list byte * diag.Diagnostics) :=
  r ← call (GetObject (s3.mkGetObjectInput bucket key));
  match r with
  | inr err =>
      Ret ([], diag.AddError [] "s3 client"
                 ("failed to get object: " +:+ errors.Error err))
  | inl resp =>
      let '(contents, err) := io_ReadAll resp in
      match err with
      | Some err =>
          Ret (contents, diag.AddError [] "s3 client"
                           ("failed to read body: " +:+ errors.Error err))
      | None => Ret (contents, [])
      end
  end.

Record putObjectOptions : Type := mkPutObjectOptions {
  optBucket : string;
  optKey : string;
  optKmsKeyId : string;
  optContents : list byte;
  optTags : gmap string string
}.

(** [(o *putObjectOptions) validate()]; [None] is the nil receiver. *)
Definition validate (o : option putObjectOptions) : diag.Diagnostics :=
  match o with
  | None => diag.AddError [] "putObjectOptions" "nil receiver"
  | Some o =>
      let d := [] in
      let d := if decide (optBucket o = "")
               then diag.AddError d "putObjectOptions" "empty bucket" else d in
      let d := if decide (optKey o = "")
               then diag.AddError d "putObjectOptions" "empty key" else d in
      let d := if decide (length (optContents o) = 0%nat)
               then diag.AddError d "putObjectOptions" "empty contents" else d in
      d
  end.

(** The [s3.PutObjectInput] that [putS3ObjectContents] builds. *)
Definition putObjectInput (o : putObjectOptions) : s3.PutObjectInput :=
  let kms := negb (bool_decide (optKmsKeyId o = "")) in
  s3.mkPutObjectInput
    (optBucket o) (optKey o) (optContents o)
    (Z.of_nat (length (optContents o)))
    "application/json"
    s3.ChecksumAlgorithmSha256
    (if kms then Some s3.ServerSideEncryptionAwsKms else None)
    (if kms then Some (optKmsKeyId o) else None)
    (if decide (0 < size (optTags o))%nat then Some (newTags (optTags o)) else None).

Definition putS3ObjectContents (client : s3.Client) (o : option putObjectOptions)
    : Prog diag.Diagnostics :=
  let d := diag.Append [] (validate o) in
  if diag.HasError d then Ret d else
  match o with
  | None => Ret d
  | Some o =>
      err ← call (PutObject (putObjectInput o));
      match err with
      | Some err =>
          Ret (diag.AddError d "s3 client"
                 ("failed s3 put object: " +:+ errors.Error err))
      | None => Ret d
      end
  end.

(** [validateS3ObjectResource(r)]; [None] is the nil receiver. *)
Definition validateS3ObjectResource (r : option S3ObjectResource)
    : diag.Diagnostics :=
  match r with
  | None => diag.AddError [] "provider" "nil receiver"
  | Some r =>
      match s3Client r with
      | None => diag.AddError [] "provider" "nil s3 client"
      | Some _ =>
          match tfeClient r with
          | None => diag.AddError [] "provider" "nil tfe client"
          | Some _ => []
          end
      end
  end.

Definition deleteS3Object (client : s3.Client) (bucket key : string)
    : Prog diag.Diagnostics :=
  err ← call (DeleteObject (s3.mkDeleteObjectInput bucket key));
  match err with
  | Some err =>
      Ret (diag.AddError [] "s3 client"
             ("failed to delete s3 object: " +:+ errors.Error err))
  | None => Ret []
  end.

(** The handlers.  [r.tfeClient] and [r.s3Client] are pointers that
    [validateS3ObjectResource] has found non-nil when they are passed on;
    the [None] branches below are the nil dereference that the validation
    excludes.  The [tflog] calls are left out. *)

Definition Create (r : S3ObjectResource) (req : resource.Request)
    (resp : resource.Response) : Prog resource.Response :=
  let resp := resource.Append resp (validateS3ObjectResource (Some r)) in
  if resource.HasError resp then Ret resp else
  let '(data, d) := tfsdk_Get (resource.Plan req) in
  let resp := resource.Append resp d in
  if resource.HasError resp then Ret resp else
  match tfeClient r, s3Client r with
  | Some tfeC, Some s3C =>
      '(state, d, ignored) ← getStateFile tfeC
          (types.ValueString (WorkspaceId data)) (types.ValueBool (IgnoreEmpty data));
      let resp := resource.Append resp d in
      if resource.HasError resp then Ret resp else
      let data := set_Id (newS3ObjectResourceID data) data in
      let data := set_Ignored (types.BoolValue ignored) data in
      if ignored then
        let data := set_StateContentsSha256 types.StringNull data in
        let data := set_BucketContentsSha256 types.StringNull data in
        Ret (State_Set resp data)
      else
        let data := set_StateContentsSha256 (sha256Contents state) data in
        let data := set_BucketContentsSha256 (sha256Contents state) data in
        let o := mkPutObjectOptions
                   (types.ValueString (Bucket data))
                   (types.ValueString (Key data))
                   (types.ValueString (KmsKeyId data))
                   state
                   ∅ in
        d ← putS3ObjectContents s3C (Some o);
        let resp := resource.Append resp d in
        if resource.HasError resp then Ret resp else
        Ret (State_Set resp data)
  | _, _ => Ret resp
  end.

Definition Read (r : S3ObjectResource) (req : resource.Request)
    (resp : resource.Response) : Prog resource.Response :=
  let resp := resource.Append resp (validateS3ObjectResource (Some r)) in
  if resource.HasError resp then Ret resp else
  let '(data, d) := tfsdk_Get (resource.PriorState req) in
  let resp := resource.Append resp d in
  if resource.HasError resp then Ret resp else
  match tfeClient r, s3Client r with
  | Some tfeC, Some s3C =>
      '(state, d, ignored) ← getStateFile tfeC
          (types.ValueString (WorkspaceId data)) (types.ValueBool (IgnoreEmpty data));
      let resp := resource.Append resp d in
      if resource.HasError resp then Ret resp else
      let data := set_Id (newS3ObjectResourceID data) data in
      let data := set_Ignored (types.BoolValue ignored) data in
      if ignored then
        let data := set_StateContentsSha256 types.StringNull data in
        let data := set_BucketContentsSha256 types.StringNull data in
        Ret (State_Set resp data)
      else
        let data := set_StateContentsSha256 (sha256Contents state) data in
        '(contents, d) ← getS3ObjectContents s3C
            (types.ValueString (Bucket data)) (types.ValueString (Key data));
        let resp := resource.Append resp d in
        if resource.HasError resp then Ret resp else
        let data := set_BucketContentsSha256 (sha256Contents contents) data in
        Ret (State_Set resp data)
  | _, _ => Ret resp
  end.

Definition Update (r : S3ObjectResource) (req : resource.Request)
    (resp : resource.Response) : Prog resource.Response :=
  let resp := resource.Append resp (validateS3ObjectResource (Some r)) in
  if resource.HasError resp then Ret resp else
  let '(plan, d) := tfsdk_Get (resource.Plan req) in
  let resp := resource.Append resp d in
  if resource.HasError resp then Ret resp else
  let '(tags, d) := ElementsAs (Tags plan) in
  let resp := resource.Append resp d in
  if resource.HasError resp then Ret resp else
  match tfeClient r, s3Client r with
  | Some tfeC, Some s3C =>
      '(contents, d, ignored) ← getStateFile tfeC
          (types.ValueString (WorkspaceId plan)) (types.ValueBool (IgnoreEmpty plan));
      let resp := resource.Append resp d in
      if resource.HasError resp then Ret resp else
      let plan := set_Ignored (types.BoolValue ignored) plan in
      if ignored then
        let plan := set_StateContentsSha256 types.StringNull plan in
        let plan := set_BucketContentsSha256 types.StringNull plan in
        Ret (State_Set resp plan)
      else
        let plan := set_StateContentsSha256 (sha256Contents contents) plan in
        let plan := set_BucketContentsSha256 (sha256Contents contents) plan in
        let o := mkPutObjectOptions
                   (types.ValueString (Bucket plan))
                   (types.ValueString (Key plan))
                   (types.ValueString (KmsKeyId plan))
                   contents
                   tags in
        d ← putS3ObjectContents s3C (Some o);
        let resp := resource.Append resp d in
        if resource.HasError resp then Ret resp else
        Ret (State_Set resp plan)
  | _, _ => Ret resp
  end.

Definition Delete (r : S3ObjectResource) (req : resource.Request)
    (resp : resource.Response) : Prog resource.Response :=
  let resp := resource.Append resp (validateS3ObjectResource (Some r)) in
  if resource.HasError resp then Ret resp else
  let '(data, d) := tfsdk_Get (resource.PriorState req) in
  let resp := resource.Append resp d in
  if resource.HasError resp then Ret resp else
  if softDelete r || types.ValueBool (SoftDelete data) then
    Ret (resource.AddWarning resp "using soft delete"
           ("bucket: " +:+ types.ValueString (Bucket data) +:+
            ", key: " +:+ types.ValueString (Key data)))
  else
    match s3Client r with
    | Some s3C =>
        d ← deleteS3Object s3C
              (types.ValueString (Bucket data)) (types.ValueString (Key data));
        Ret (resource.Append resp d)
    | None => Ret resp
    end.

(** Effective soft delete: the provider-wide default or the record's flag. *)
Definition effectiveSoftDelete (r : S3ObjectResource)
    (data : S3ObjectResourceModel) : bool :=
  softDelete r || types.ValueBool (SoftDelete data).

(** ** Scripted worlds

    A world that answers every call of one kind the same way. *)

Record Script : Type := mkScript {
  on_ReadCurrent : tfe.StateVersion + error;
  on_Download : list byte + error;
  on_GetObject : s3.GetObjectOutput + error;
  on_PutObject : option error;
  on_DeleteObject : option error
}.

Definition script_respond : Responder Script :=
  fun R e =>
    match e in Event R0 return Script -> R0 * Script with
    | ReadCurrent _ => fun w => (on_ReadCurrent w, w)
    | Download _ => fun w => (on_Download w, w)
    | GetObject _ => fun w => (on_GetObject w, w)
    | PutObject _ => fun w => (on_PutObject w, w)
    | DeleteObject _ => fun w => (on_DeleteObject w, w)
    end.

(** The result and the trace of a run. *)
Definition result {World A : Type} (out : A * list Call * World) : A := out.1.1.
Definition trace {World A : Type} (out : A * list Call * World) : list Call := out.1.2.

(** No character of [s] is the separator [sep]. *)
Fixpoint free_of (sep : ascii) (s : string) : Prop :=
  match s with
  | EmptyString => True
  | String c rest => c <> sep ∧ free_of sep rest
  end.

(** ** What a trace says about the two services *)

(** The state source reported that the workspace has no current state
    version: [ReadCurrent] failed with an error that is
    [tfe.ErrResourceNotFound]. *)
Definition reports_no_current_version (tr : list Call) : Prop :=
  ∃ ws err, CallReadCurrent ws (inr err) ∈ tr ∧
            errors.Is err ErrResourceNotFound = true.

(** The state source returned the bytes [S]. *)
Definition state_source_returns (S : list byte) (tr : list Call) : Prop :=
  ∃ u, CallDownload u (inl S) ∈ tr.

(** The object store returned the bytes [T], read to the end. *)
Definition object_store_returns (T : list byte) (tr : list Call) : Prop :=
  ∃ i, CallGetObject i (inl (s3.mkGetObjectOutput T None)) ∈ tr.

(** The error of a remote call that failed. *)
Definition call_error (c : Call) : option error :=
  match c with
  | CallReadCurrent _ (inr err) => Some err
  | CallDownload _ (inr err) => Some err
  | CallGetObject _ (inr err) => Some err
  | CallGetObject _ (inl resp) => s3.BodyErr resp
  | CallPutObject _ err => err
  | CallDeleteObject _ err => err
  | _ => None
  end.

Definition is_read_current (c : Call) : bool :=
  match c with CallReadCurrent _ _ => true | _ => false end.

(** ** The outcomes of the helpers, case by case *)

Definition errorDiag (summary detail : string) : diag.Diagnostic :=
  diag.mkDiagnostic diag.SeverityError summary detail.

Inductive getStateFile_outcome (ws : string) (ignoreEmpty : bool)
    : list byte * diag.Diagnostics * bool -> list Call -> Prop :=
  | gsf_ignored err :
      ignoreEmpty = true ->
      errors.Is err ErrResourceNotFound = true ->
      getStateFile_outcome ws ignoreEmpty ([], [], true)
        [CallReadCurrent ws (inr err)]
  | gsf_no_version err :
      ignoreEmpty && errors.Is err ErrResourceNotFound = false ->
      getStateFile_outcome ws ignoreEmpty
        ([], [errorDiag "tfe client"
                ("failed to get state version: " +:+ errors.Error err)], false)
        [CallReadCurrent ws (inr err)]
  | gsf_no_download ver err :
      getStateFile_outcome ws ignoreEmpty
        ([], [errorDiag "tfe client"
                ("failed to download state: " +:+ errors.Error err)], false)
        [CallReadCurrent ws (inl ver);
         CallDownload (tfe.DownloadURL ver) (inr err)]
  | gsf_state ver state :
      getStateFile_outcome ws ignoreEmpty (state, [], false)
        [CallReadCurrent ws (inl ver);
         CallDownload (tfe.DownloadURL ver) (inl state)].

Inductive getS3ObjectContents_outcome (bucket key : string)
    : list byte * diag.Diagnostics -> list Call -> Prop :=
  | gso_no_object err :
      getS3ObjectContents_outcome bucket key
        ([], [errorDiag "s3 client"
                ("failed to get object: " +:+ errors.Error err)])
        [CallGetObject (s3.mkGetObjectInput bucket key) (inr err)]
  | gso_broken_body contents err :
      getS3ObjectContents_outcome bucket key
        (contents, [errorDiag "s3 client"
                      ("failed to read body: " +:+ errors.Error err)])
        [CallGetObject (s3.mkGetObjectInput bucket key)
           (inl (s3.mkGetObjectOutput contents (Some err)))]
  | gso_contents contents :
      getS3ObjectContents_outcome bucket key (contents, [])
        [CallGetObject (s3.mkGetObjectInput bucket key)
           (inl (s3.mkGetObjectOutput contents None))].

(** The write precondition of [putObjectOptions.validate]. *)
Definition writable (o : putObjectOptions) : Prop :=
  optBucket o <> "" ∧ optKey o <> "" ∧ optContents o <> [].

Inductive putS3ObjectContents_outcome
    : option putObjectOptions -> diag.Diagnostics -> list Call -> Prop :=
  | pso_rejected o d :
      (∀ o', o = Some o' -> ¬ writable o') ->
      diag.HasError d = true ->
      putS3ObjectContents_outcome o d []
  | pso_failed o err :
      writable o ->
      putS3ObjectContents_outcome (Some o)
        [errorDiag "s3 client" ("failed s3 put object: " +:+ errors.Error err)]
        [CallPutObject (putObjectInput o) (Some err)]
  | pso_stored o :
      writable o ->
      putS3ObjectContents_outcome (Some o) []
        [CallPutObject (putObjectInput o) None].

Inductive deleteS3Object_outcome (bucket key : string)
    : diag.Diagnostics -> list Call -> Prop :=
  | dso_failed err :
      deleteS3Object_outcome bucket key
        [errorDiag "s3 client"
           ("failed to delete s3 object: " +:+ errors.Error err)]
        [CallDeleteObject (s3.mkDeleteObjectInput bucket key) (Some err)]
  | dso_deleted :
      deleteS3Object_outcome bucket key []
        [CallDeleteObject (s3.mkDeleteObjectInput bucket key) None].

(** ** Sample inputs *)

Module sample.

(** A resource wired to both clients, and one that was never configured. *)
Definition configured : S3ObjectResource :=
  mkS3ObjectResource false (Some tfe.NewClient) (Some s3.NewFromConfig).

Definition unconfigured : S3ObjectResource :=
  mkS3ObjectResource true None None.

(** The record of [examples/provider/provider.tf] for one workspace, as
    planned: computed fields still unknown. *)
Definition plan : S3ObjectResourceModel :=
  mkS3ObjectResourceModel
    types.StringUnknown
    (types.StringValue "ws-1")
    (types.StringValue "states")
    (types.StringValue "statefiles/prod/terraform.tfstate")
    types.StringUnknown types.StringUnknown
    (types.StringValue "alias/tfsync")
    (types.BoolValue true) types.BoolUnknown types.BoolNull
    (types.MapValue {[ "MyTag" := types.StringValue "MyValue" ]}).

(** The same record as the host tracks it after a Create. *)
Definition tracked : S3ObjectResourceModel :=
  set_Ignored (types.BoolValue false)
    (set_Id (types.StringValue "ws-1/states/statefiles/prod/terraform.tfstate") plan).

(** A plan that moves the tracked record to another bucket: the id is the
    prior state's ([UseStateForUnknown]). *)
Definition moved : S3ObjectResourceModel :=
  mkS3ObjectResourceModel
    (Id tracked) (WorkspaceId tracked) (types.StringValue "archive") (Key tracked)
    types.StringUnknown types.StringUnknown (KmsKeyId tracked)
    (IgnoreEmpty tracked) types.BoolUnknown (SoftDelete tracked) (Tags tracked).

(** A plan whose bucket is the empty string. *)
Definition no_bucket : S3ObjectResourceModel :=
  mkS3ObjectResourceModel
    (Id plan) (WorkspaceId plan) (types.StringValue "") (Key plan)
    (StateContentsSha256 plan) (BucketContentsSha256 plan) (KmsKeyId plan)
    (IgnoreEmpty plan) (Ignored plan) (SoftDelete plan) (Tags plan).

Definition state_bytes : list byte := bytes_of_string "{}".
Definition object_bytes : list byte := bytes_of_string "[]".

(** Terraform Cloud holds the state [S], the bucket holds [T], and every
    store call succeeds. *)
Definition holding (S T : list byte) : Script :=
  mkScript (inl (tfe.mkStateVersion "https://archivist.terraform.io/v1/object/1"))
           (inl S)
           (inl (s3.mkGetObjectOutput T None))
           None None.

(** The workspace has no current state version. *)
Definition no_state : Script :=
  mkScript (inr ErrResourceNotFound)
           (inr ErrResourceNotFound)
           (inl (s3.mkGetObjectOutput object_bytes None))
           None None.

End sample.

(** ** The remaining handlers of s3_object_resource.go *)

(** [NewS3ObjectResource()]: the zero value [&S3ObjectResource{}]. *)
Definition NewS3ObjectResource : S3ObjectResource :=
  mkS3ObjectResource false None None.

(** Modelled from the spec: the [softDelete] field of
    [ResourceConfigureData], the provider-wide soft-delete default that
    [Configure] reads as [data.softDelete]; the declaration of the struct
    under src/ has the two clients only. *)
Record ResourceConfigureData : Type := mkResourceConfigureData {
  cfg_softDelete : bool;
  cfg_tfeClient : option tfe.Client;
  cfg_s3Client : option s3.Client
}.

(** [req.ProviderData], an [any]: nil, a [*ResourceConfigureData], or a
    value of another type, kept by the name [%T] prints. *)
Inductive ProviderData : Type :=
  | ProviderDataNil
  | ProviderDataConfigure (data : ResourceConfigureData)
  | ProviderDataOther (typeName : string).

(** [(r *S3ObjectResource) Configure]: the resource afterwards and the
    diagnostics of the response. *)
Definition Configure (r : S3ObjectResource) (providerData : ProviderData)
    (diags : diag.Diagnostics) : S3ObjectResource * diag.Diagnostics :=
  match providerData with
  | ProviderDataNil => (r, diags)
  | ProviderDataOther typeName =>
      (r, diag.AddError diags "Unexpected Resource Configure Type"
            ("Expected *ResourceConfigureData, got: " +:+ typeName +:+
             ". Please report this issue to the provider developers."))
  | ProviderDataConfigure data =>
      (mkS3ObjectResource (cfg_softDelete data) (cfg_tfeClient data)
         (cfg_s3Client data), diags)
  end.




(** ** The handlers by name *)

Inductive Handler : Type := OnCreate | OnRead | OnUpdate | OnDelete.

Definition handle (h : Handler)
    : S3ObjectResource -> resource.Request -> resource.Response ->
      Prog resource.Response :=
  match h with
  | OnCreate => Create
  | OnRead => Read
  | OnUpdate => Update
  | OnDelete => Delete
  end.

(** The record a handler decodes: [req.Plan] in Create and Update,
    [req.State] in Read and Delete. *)
Definition decoded (h : Handler) (req : resource.Request)
    : S3ObjectResourceModel :=
  match h with
  | OnCreate | OnUpdate => resource.Plan req
  | OnRead | OnDelete => resource.PriorState req
  end.

(** Create, Read and Update: the handlers that fetch the remote state. *)
Definition fetches (h : Handler) : bool :=
  match h with OnDelete => false | _ => true end.

(** ** What the handlers hand back, case by case *)

(** The records Create, Read and Update pass to [State.Set], and the
    options Create and Update pass to [putS3ObjectContents]. *)
Definition ignored_record (data : S3ObjectResourceModel) : S3ObjectResourceModel :=
  set_BucketContentsSha256 types.StringNull
    (set_StateContentsSha256 types.StringNull
       (set_Ignored (types.BoolValue true) data)).

Definition synced_record (data : S3ObjectResourceModel) (state contents : list byte)
    : S3ObjectResourceModel :=
  set_BucketContentsSha256 (sha256Contents contents)
    (set_StateContentsSha256 (sha256Contents state)
       (set_Ignored (types.BoolValue false) data)).

Definition with_id (data : S3ObjectResourceModel) : S3ObjectResourceModel :=
  set_Id (newS3ObjectResourceID data) data.

Definition put_options (data : S3ObjectResourceModel) (state : list byte)
    (tags : gmap string string) : putObjectOptions :=
  mkPutObjectOptions
    (types.ValueString (Bucket data)) (types.ValueString (Key data))
    (types.ValueString (KmsKeyId data)) state tags.

(** The tags each writing handler sends: Create none, Update the plan's. *)
Definition sent_tags (h : Handler) (data : S3ObjectResourceModel)
    : gmap string string :=
  match h with
  | OnUpdate => (ElementsAs (Tags data)).1
  | _ => ∅
  end.

(** The record each handler works on after its first assignments: Create
    and Read set the id, Update does not. *)
Definition prepared (h : Handler) (data : S3ObjectResourceModel)
    : S3ObjectResourceModel :=
  match h with
  | OnUpdate => data
  | _ => with_id data
  end.

(** The run of a fetching handler on a configured resource: the response
    and the trace. *)
Inductive sync_outcome (h : Handler) (data : S3ObjectResourceModel)
    (st : option S3ObjectResourceModel)
    : resource.Response -> list Call -> Prop :=
  | so_no_version err :
      types.ValueBool (IgnoreEmpty data) && errors.Is err ErrResourceNotFound = false ->
      sync_outcome h data st
        (resource.mkResponse st
           [errorDiag "tfe client"
              ("failed to get state version: " +:+ errors.Error err)])
        [CallReadCurrent (types.ValueString (WorkspaceId data)) (inr err)]
  | so_ignored err :
      types.ValueBool (IgnoreEmpty data) = true ->
      errors.Is err ErrResourceNotFound = true ->
      sync_outcome h data st
        (resource.mkResponse (Some (ignored_record (prepared h data))) [])
        [CallReadCurrent (types.ValueString (WorkspaceId data)) (inr err)]
  | so_no_download ver err :
      sync_outcome h data st
        (resource.mkResponse st
           [errorDiag "tfe client"
              ("failed to download state: " +:+ errors.Error err)])
        [CallReadCurrent (types.ValueString (WorkspaceId data)) (inl ver);
         CallDownload (tfe.DownloadURL ver) (inr err)]
  | so_rejected ver state d :
      h <> OnRead ->
      ¬ writable (put_options data state (sent_tags h data)) ->
      diag.HasError d = true ->
      sync_outcome h data st (resource.mkResponse st d)
        [CallReadCurrent (types.ValueString (WorkspaceId data)) (inl ver);
         CallDownload (tfe.DownloadURL ver) (inl state)]
  | so_put_failed ver state err :
      h <> OnRead ->
      writable (put_options data state (sent_tags h data)) ->
      sync_outcome h data st
        (resource.mkResponse st
           [errorDiag "s3 client"
              ("failed s3 put object: " +:+ errors.Error err)])
        [CallReadCurrent (types.ValueString (WorkspaceId data)) (inl ver);
         CallDownload (tfe.DownloadURL ver) (inl state);
         CallPutObject
           (putObjectInput (put_options data state (sent_tags h data)))
           (Some err)]
  | so_written ver state :
      h <> OnRead ->
      writable (put_options data state (sent_tags h data)) ->
      sync_outcome h data st
        (resource.mkResponse (Some (synced_record (prepared h data) state state)) [])
        [CallReadCurrent (types.ValueString (WorkspaceId data)) (inl ver);
         CallDownload (tfe.DownloadURL ver) (inl state);
         CallPutObject
           (putObjectInput (put_options data state (sent_tags h data)))
           None]
  | so_no_object ver state err :
      h = OnRead ->
      sync_outcome h data st
        (resource.mkResponse st
           [errorDiag "s3 client"
              ("failed to get object: " +:+ errors.Error err)])
        [CallReadCurrent (types.ValueString (WorkspaceId data)) (inl ver);
         CallDownload (tfe.DownloadURL ver) (inl state);
         CallGetObject
           (s3.mkGetObjectInput (types.ValueString (Bucket data))
                                (types.ValueString (Key data)))
           (inr err)]
  | so_broken_body ver state contents err :
      h = OnRead ->
      sync_outcome h data st
        (resource.mkResponse st
           [errorDiag "s3 client"
              ("failed to read body: " +:+ errors.Error err)])
        [CallReadCurrent (types.ValueString (WorkspaceId data)) (inl ver);
         CallDownload (tfe.DownloadURL ver) (inl state);
         CallGetObject
           (s3.mkGetObjectInput (types.ValueString (Bucket data))
                                (types.ValueString (Key data)))
           (inl (s3.mkGetObjectOutput contents (Some err)))]
  | so_read ver state contents :
      h = OnRead ->
      sync_outcome h data st
        (resource.mkResponse
           (Some (synced_record (prepared h data) state contents)) [])
        [CallReadCurrent (types.ValueString (WorkspaceId data)) (inl ver);
         CallDownload (tfe.DownloadURL ver) (inl state);
         CallGetObject
           (s3.mkGetObjectInput (types.ValueString (Bucket data))
                                (types.ValueString (Key data)))
           (inl (s3.mkGetObjectOutput contents None))].

(** ** Shapes of strings *)

(** Every character of [s] satisfies [p]. *)
Fixpoint all_chars (p : ascii -> bool) (s : string) : bool :=
  match s with
  | EmptyString => true
  | String c rest => p c && all_chars p rest
  end.

Definition lower_hex (c : ascii) : bool :=
  url.between "0" "9" c || url.between "a" "f" c.

(** A SHA-256 digest as the record holds it: 64 lowercase hex digits. *)
Definition is_digest (s : string) : Prop :=
  String.length s = 64%nat ∧ all_chars lower_hex s = true.

(** The characters a tag string is made of: the unreserved characters,
    the plus and percent signs of the escaping, and the two separators. *)
Definition tag_char (c : ascii) : bool :=
  negb (url.shouldEscape c) || Ascii.eqb c "+" || Ascii.eqb c "%" ||
  Ascii.eqb c "=" || Ascii.eqb c "&".

(** ** A world with an object store

    Terraform Cloud answers from two tables that do not change; the object
    store is a finite map from (bucket, key) to contents: a put stores, a get
    finds or fails, a delete removes, and no call fails otherwise. *)

Record Cloud : Type := mkCloud {
  cloud_current : string -> tfe.StateVersion + error;
  cloud_download : string -> list byte + error;
  cloud_objects : gmap (string * string) (list byte)
}.

Definition cloud_respond : Responder Cloud :=
  fun R e =>
    match e in Event R0 return Cloud -> R0 * Cloud with
    | ReadCurrent ws => fun w => (cloud_current w ws, w)
    | Download u => fun w => (cloud_download w u, w)
    | GetObject i => fun w =>
        match cloud_objects w !! (s3.GetBucket i, s3.GetKey i) with
        | Some contents => (inl (s3.mkGetObjectOutput contents None), w)
        | None => (inr (errorString "NoSuchKey"), w)
        end
    | PutObject i => fun w =>
        (None, mkCloud (cloud_current w) (cloud_download w)
                 (<[(s3.PutBucket i, s3.PutKey i) := s3.PutBody i]> (cloud_objects w)))
    | DeleteObject i => fun w =>
        (None, mkCloud (cloud_current w) (cloud_download w)
                 (delete (s3.DeleteBucket i, s3.DeleteKey i) (cloud_objects w)))
    end.

(** The world a run ends in. *)
Definition world_after {World A : Type} (out : A * list Call * World) : World :=
  out.2.

(** Two records with the same configuration: they agree on every field the
    practitioner sets, and may differ in the computed ones. *)
Definition same_configuration (d d' : S3ObjectResourceModel) : Prop :=
  WorkspaceId d = WorkspaceId d' ∧ Bucket d = Bucket d' ∧ Key d = Key d' ∧
  KmsKeyId d = KmsKeyId d' ∧ IgnoreEmpty d = IgnoreEmpty d' ∧
  SoftDelete d = SoftDelete d' ∧ Tags d = Tags d'.

(** A cloud in which workspace ws-1 has the state [state_bytes] and the
    store is empty. *)
Definition sample_cloud : Cloud :=
  mkCloud
    (fun ws => if String.eqb ws "ws-1"
               then inl (tfe.mkStateVersion "https://archivist.terraform.io/v1/object/1")
               else inr ErrResourceNotFound)
    (fun u => if String.eqb u "https://archivist.terraform.io/v1/object/1"
              then inl sample.state_bytes
              else inr (errorString "not found"))
    ∅.

(** The download of the state fails. *)
Definition failing_download : Script :=
  mkScript (inl (tfe.mkStateVersion "https://archivist.terraform.io/v1/object/1"))
           (inr (errorString "503 Service Unavailable"))
           (inl (s3.mkGetObjectOutput sample.object_bytes None))
           None None.

(** Terraform Cloud holds the state [S]; the store refuses every call. *)
Definition failing_store (S : list byte) : Script :=
  mkScript (inl (tfe.mkStateVersion "https://archivist.terraform.io/v1/object/1"))
           (inl S)
           (inr (errorString "AccessDenied"))
           (Some (errorString "AccessDenied"))
           (Some (errorString "AccessDenied")).

(** What a finished call did to the store of a [Cloud]. *)
Definition cloud_effect (c : Call) (w : Cloud) : Cloud :=
  match c with
  | CallPutObject i None =>
      mkCloud (cloud_current w) (cloud_download w)
        (<[(s3.PutBucket i, s3.PutKey i) := s3.PutBody i]> (cloud_objects w))
  | CallDeleteObject i None =>
      mkCloud (cloud_current w) (cloud_download w)
        (delete (s3.DeleteBucket i, s3.DeleteKey i) (cloud_objects w))
  | _ => w
  end.

(** * Properties *)

(** ** The standard-library functions on known vectors *)

Example sha256_empty :
  hex.EncodeToString (sha256.Sum256 []) =
  "e3b0c44298fc1c149afbf4c8996fb92427ae41e4649b934ca495991b7852b855".
Proof. vm_compute. reflexivity. Qed.

Example sha256_abc :
  hex.EncodeToString (sha256.Sum256 (bytes_of_string "abc")) =
  "ba7816bf8f01cfea414140de5dae2223b00361a396177a9cb410ff61f20015ad".
Proof. vm_compute. reflexivity. Qed.

Example sha256_two_blocks :
  hex.EncodeToString (sha256.Sum256 (bytes_of_string
    "abcdbcdecdefdefgefghfghighijhijkijkljklmklmnlmnomnopnopq")) =
  "248d6a61d20638b8e5c026930c3e6039a33ce45964ff2167f6ecedd419db06c1".
Proof. vm_compute. reflexivity. Qed.

Example sha256_constants :
  nth 0 sha256._K 0%Z = 0x428a2f98%Z /\ nth 63 sha256._K 0%Z = 0xc67178f2%Z /\
  sha256.h0 sha256.init = 0x6a09e667%Z /\ sha256.h7 sha256.init = 0x5be0cd19%Z.
Proof. repeat split; reflexivity. Qed.

Example QueryEscape_example :
  url.QueryEscape "k&=%~ /" = "k%26%3D%25~+%2F".
Proof. reflexivity. Qed.

Example newTags_example :
  newTags_range [("a", "1"); ("b", "x y")] = "a=1&b=x+y" /\
  parse_tags "a=1&b=x+y" = Some [("a", "1"); ("b", "x y")].
Proof. split; reflexivity. Qed.

(** ** Tag strings *)

Lemma append_nil (t : string) : "" +:+ t = t.
Proof. reflexivity. Qed.

Lemma append_cons (c : ascii) (s t : string) :
  String c s +:+ t = String c (s +:+ t).
Proof. reflexivity. Qed.

Lemma free_of_app sep s t :
  free_of sep s -> free_of sep t -> free_of sep (s +:+ t).
Proof.
  induction s as [| c s IH]; rewrite ?append_nil, ?append_cons; cbn; [tauto |].
  intros [Hc Hs] Ht. split; [exact Hc | exact (IH Hs Ht)].
Qed.

Lemma QueryEscape_cons c rest :
  url.QueryEscape (String c rest) =
  url.QueryEscape (String c "") +:+ url.QueryEscape rest.
Proof.
  cbn. destruct (Ascii.eqb c " "); [reflexivity |].
  destruct (url.shouldEscape c); reflexivity.
Qed.

Lemma QueryEscape_char_free c :
  free_of "&" (url.QueryEscape (String c "")) ∧
  free_of "=" (url.QueryEscape (String c "")).
Proof.
  destruct c as [[] [] [] [] [] [] [] []]; vm_compute; repeat split; discriminate.
Qed.

Lemma QueryEscape_free s :
  free_of "&" (url.QueryEscape s) ∧ free_of "=" (url.QueryEscape s).
Proof.
  induction s as [| c s [IH1 IH2]]; [done |].
  rewrite QueryEscape_cons.
  destruct (QueryEscape_char_free c).
  split; by apply free_of_app.
Qed.

Lemma QueryUnescape_char c rest :
  url.QueryUnescape (url.QueryEscape (String c "") +:+ rest) =
  String c <$> url.QueryUnescape rest.
Proof.
  destruct c as [[] [] [] [] [] [] [] []]; reflexivity.
Qed.

(** Unescaping undoes escaping. *)
Lemma QueryUnescape_QueryEscape s :
  url.QueryUnescape (url.QueryEscape s) = Some s.
Proof.
  induction s as [| c s IH]; [reflexivity |].
  rewrite QueryEscape_cons, QueryUnescape_char, IH. reflexivity.
Qed.

Lemma Split_free sep s :
  free_of sep s -> strings.Split s sep = [s].
Proof.
  induction s as [| c s IH]; cbn [strings.Split free_of]; [done |].
  intros [Hc Hs]. rewrite (IH Hs).
  destruct (Ascii.eqb_spec c sep); [done | reflexivity].
Qed.

Lemma Split_app sep s t :
  free_of sep s ->
  strings.Split (s +:+ String sep t) sep = s :: strings.Split t sep.
Proof.
  induction s as [| c s IH]; rewrite ?append_nil, ?append_cons;
    cbn [strings.Split free_of].
  - intros _. by rewrite Ascii.eqb_refl.
  - intros [Hc Hs]. rewrite (IH Hs).
    destruct (Ascii.eqb_spec c sep); [done | reflexivity].
Qed.

Lemma tag_pair_free kv : free_of "&" (tag_pair kv).
Proof.
  unfold tag_pair. destruct (QueryEscape_free kv.1), (QueryEscape_free kv.2).
  apply free_of_app; [done |]. cbn. split; [discriminate | done].
Qed.

Lemma parse_pair_tag_pair kv : parse_pair (tag_pair kv) = Some kv.
Proof.
  unfold parse_pair, tag_pair. destruct kv as [k v]. cbn [fst snd].
  change ("=" +:+ url.QueryEscape v) with (String "=" (url.QueryEscape v)).
  destruct (QueryEscape_free k) as [_ Hk], (QueryEscape_free v) as [_ Hv].
  rewrite (Split_app "=" _ _ Hk), (Split_free "=" _ Hv).
  rewrite !QueryUnescape_QueryEscape. reflexivity.
Qed.

Lemma Split_Join_tag_pairs e entries :
  strings.Split (strings.Join (List.map tag_pair (e :: entries)) "&") "&" =
  List.map tag_pair (e :: entries).
Proof.
  revert e. induction entries as [| e' entries IH]; intros e.
  - cbn. apply Split_free, tag_pair_free.
  - change (strings.Join (List.map tag_pair (e :: e' :: entries)) "&")
      with (tag_pair e +:+
            String "&" (strings.Join (List.map tag_pair (e' :: entries)) "&")).
    rewrite (Split_app "&" _ _ (tag_pair_free e)), IH. reflexivity.
Qed.

Lemma mapM_parse_pair entries :
  mapM parse_pair (List.map tag_pair entries) = Some entries.
Proof.
  induction entries as [| e entries IH]; [reflexivity |].
  cbn. rewrite parse_pair_tag_pair. cbn. rewrite IH. reflexivity.
Qed.

(** Reading back what [newTags] wrote gives the entries in the order
    they were visited. *)
Lemma parse_tags_newTags_range entries :
  entries <> [] ->
  parse_tags (newTags_range entries) = Some entries ∧
  strings.Split (newTags_range entries) "&" = List.map tag_pair entries.
Proof.
  destruct entries as [| e entries]; [done | intros _].
  unfold parse_tags, newTags_range.
  rewrite Split_Join_tag_pairs. split; [apply mapM_parse_pair | reflexivity].
Qed.

(** C9: for a non-empty map of tags, whatever order [range] visits it in,
    the tag string is the escaped [key=value] pairs joined by ampersands, one
    per entry, and splitting on the ampersand and the equals sign and
    unescaping gives back exactly the map. *)
Theorem newTags_round_trip (tags : gmap string string)
    (entries : list (string * string)) :
  tags <> ∅ ->
  range_order tags entries ->
  newTags_range entries = strings.Join (List.map tag_pair entries) "&" ∧
  strings.Split (newTags_range entries) "&" = List.map tag_pair entries ∧
  length (strings.Split (newTags_range entries) "&") = size tags ∧
  list_to_map <$> parse_tags (newTags_range entries) = Some tags.
Proof.
  intros Hne Hrange. unfold range_order in Hrange.
  assert (entries <> []) as Hentries.
  { intros ->. apply Permutation_nil in Hrange.
    by apply map_to_list_empty_iff in Hrange. }
  destruct (parse_tags_newTags_range entries Hentries) as [Hparse Hsplit].
  split; [reflexivity |]. split; [exact Hsplit |]. split.
  - rewrite Hsplit, length_map, Hrange. apply length_map_to_list.
  - rewrite Hparse. cbn. f_equal. symmetry. apply list_to_map_flip.
    by symmetry.
Qed.

(** ** Digests *)

Lemma hex_digits_decode (v : byte) :
  byte_of_Z (Z.lor (Z.shiftl (url.unhex (hex.digit (Z.shiftr (byte_to_Z v) 4))) 4)
                   (url.unhex (hex.digit (Z.land (byte_to_Z v) 15)))) = v.
Proof. destruct v; vm_compute; reflexivity. Qed.

(** [hex.EncodeToString] loses nothing. *)
Lemma EncodeToString_inj (l1 l2 : list byte) :
  hex.EncodeToString l1 = hex.EncodeToString l2 -> l1 = l2.
Proof.
  revert l2. induction l1 as [| v1 l1 IH]; intros [| v2 l2]; cbn; try done.
  intros [= Hhi Hlo Hrest]. f_equal; [| by apply IH].
  rewrite <- (hex_digits_decode v1), <- (hex_digits_decode v2).
  by rewrite Hhi, Hlo.
Qed.

Lemma StringValue_hex_inj (a b : list byte) :
  types.StringValue (hex.EncodeToString a) =
  types.StringValue (hex.EncodeToString b) -> a = b.
Proof. intros [= H]. by apply EncodeToString_inj. Qed.

Lemma Sum256_length (data : list byte) : length (sha256.Sum256 data) = 32%nat.
Proof. reflexivity. Qed.

#[local] Opaque sha256.Sum256.

(** ** Running programs *)

Section Execution.
Context {World : Type} (respond : Responder World).

Lemma exec_bind {A B : Type} (p : Prog A) (f : A -> Prog B) (w : World) :
  exec respond (p ≫= f) w =
  let '(a, tr1, w1) := exec respond p w in
  let '(b, tr2, w2) := exec respond (f a) w1 in
  (b, tr1 ++ tr2, w2).
Proof.
  revert w. induction p as [a | R e k IH]; intros w.
  - cbn. destruct (exec respond (f a) w) as [[b tr2] w2]. reflexivity.
  - cbn. destruct (respond R e w) as [r w1].
    change (bind (k r) f) with (k r ≫= f). rewrite IH.
    destruct (exec respond (k r) w1) as [[a tr1] w2].
    destruct (exec respond (f a) w2) as [[b tr2] w3]. reflexivity.
Qed.

Lemma getStateFile_spec client ws ignoreEmpty w res tr w' :
  exec respond (getStateFile client ws ignoreEmpty) w = (res, tr, w') ->
  getStateFile_outcome ws ignoreEmpty res tr.
Proof.
  unfold getStateFile. cbn.
  destruct (respond _ (ReadCurrent ws) w) as [[ver | err] w1]; cbn.
  - destruct (respond _ (Download (tfe.DownloadURL ver)) w1) as [[state | err] w2];
      cbn; intros [= <- <- <-]; constructor.
  - destruct ignoreEmpty; cbn.
    + destruct (errors.Is err ErrResourceNotFound) eqn:His;
        intros [= <- <- <-]; constructor; done.
    + intros [= <- <- <-]; constructor; done.
Qed.

Lemma getS3ObjectContents_spec client bucket key w res tr w' :
  exec respond (getS3ObjectContents client bucket key) w = (res, tr, w') ->
  getS3ObjectContents_outcome bucket key res tr.
Proof.
  unfold getS3ObjectContents. cbn.
  destruct (respond _ (GetObject (s3.mkGetObjectInput bucket key)) w)
    as [[[contents [err|]] | err] w1]; cbn; intros [= <- <- <-]; constructor.
Qed.

Lemma validate_writable o :
  writable o -> validate (Some o) = [].
Proof.
  intros (Hb & Hk & Hc). unfold validate.
  destruct (decide (optBucket o = "")); [done |].
  destruct (decide (optKey o = "")); [done |].
  destruct (decide (length (optContents o) = 0%nat)) as [Hlen |]; [| done].
  destruct (optContents o); [done | discriminate Hlen].
Qed.

Lemma validate_not_writable o :
  ¬ writable o -> diag.HasError (validate (Some o)) = true.
Proof.
  intros Hnw. unfold validate.
  destruct (decide (optBucket o = "")) as [Hb | Hb];
    destruct (decide (optKey o = "")) as [Hk | Hk];
    destruct (decide (length (optContents o) = 0%nat)) as [Hc | Hc];
    try reflexivity.
  exfalso. apply Hnw. repeat split; [done | done |].
  intros Heq. apply Hc. by rewrite Heq.
Qed.

Lemma writable_dec o : writable o ∨ ¬ writable o.
Proof.
  unfold writable.
  destruct (decide (optBucket o = "")), (decide (optKey o = "")),
    (decide (optContents o = [])); tauto.
Qed.

Lemma HasError_app (d1 d2 : diag.Diagnostics) :
  diag.HasError (d1 ++ d2) = diag.HasError d1 || diag.HasError d2.
Proof. apply existsb_app. Qed.

Lemma Contains_spec (ds : diag.Diagnostics) (d : diag.Diagnostic) :
  diag.Contains ds d = true <-> d ∈ ds.
Proof.
  unfold diag.Contains. rewrite existsb_exists. split.
  - intros (d' & Hin & Heq). apply bool_decide_eq_true in Heq. subst.
    by apply list_elem_of_In.
  - intros Hin. exists d. split; [by apply list_elem_of_In |].
    by apply bool_decide_eq_true.
Qed.

(** Appending never loses an error and never invents one. *)
Lemma HasError_Append (ds new : diag.Diagnostics) :
  diag.HasError (diag.Append ds new) = diag.HasError ds || diag.HasError new.
Proof.
  revert ds. induction new as [| d new IH]; intros ds; cbn.
  - by rewrite orb_false_r.
  - destruct (diag.Contains ds d) eqn:Hc.
    + rewrite IH. apply Contains_spec in Hc.
      destruct (diag.isError d) eqn:Hd; cbn; [| done].
      assert (diag.HasError ds = true) as ->; [| done].
      apply existsb_exists. exists d. split; [by apply list_elem_of_In | done].
    + rewrite IH, HasError_app. cbn. rewrite orb_false_r.
      by rewrite orb_assoc.
Qed.

Lemma putS3ObjectContents_spec client o w d tr w' :
  exec respond (putS3ObjectContents client o) w = (d, tr, w') ->
  putS3ObjectContents_outcome o d tr.
Proof.
  unfold putS3ObjectContents.
  destruct o as [o |].
  - destruct (writable_dec o) as [Hw | Hnw].
    + rewrite (validate_writable o Hw). cbn.
      destruct (respond _ (PutObject (putObjectInput o)) w) as [[err |] w1];
        intros [= <- <- <-]; constructor; done.
    + pose proof (validate_not_writable o Hnw) as Herr.
      assert (diag.HasError (diag.Append [] (validate (Some o))) = true) as Herr'.
      { by rewrite HasError_Append, Herr. }
      rewrite Herr'. intros [= <- <- <-].
      apply pso_rejected; [| done]. by intros o' [= <-].
  - cbn. intros [= <- <- <-]. apply pso_rejected; [| done]. by intros o' [=].
Qed.

Lemma deleteS3Object_spec client bucket key w d tr w' :
  exec respond (deleteS3Object client bucket key) w = (d, tr, w') ->
  deleteS3Object_outcome bucket key d tr.
Proof.
  unfold deleteS3Object. cbn.
  destruct (respond _ (DeleteObject (s3.mkDeleteObjectInput bucket key)) w)
    as [[err |] w1]; intros [= <- <- <-]; constructor.
Qed.

#[local] Arguments getStateFile : simpl never.
#[local] Arguments getS3ObjectContents : simpl never.
#[local] Arguments putS3ObjectContents : simpl never.
#[local] Arguments deleteS3Object : simpl never.
#[local] Arguments sha256Contents : simpl never.
#[local] Arguments newS3ObjectResourceID : simpl never.
#[local] Arguments ElementsAs : simpl never.

(** Split off the helper call at the head of the program and replace
    its run by one of its outcomes. *)
Ltac helper_run :=
  rewrite exec_bind;
  match goal with
  | |- context [exec respond (getStateFile ?c ?ws ?ie) ?w] =>
      let E := fresh "E" in
      destruct (exec respond (getStateFile c ws ie) w) as [[[[? ?] ?] ?] ?] eqn:E;
      apply getStateFile_spec in E; inversion E; subst; clear E
  | |- context [exec respond (getS3ObjectContents ?c ?b ?k) ?w] =>
      let E := fresh "E" in
      destruct (exec respond (getS3ObjectContents c b k) w) as [[[? ?] ?] ?] eqn:E;
      apply getS3ObjectContents_spec in E; inversion E; subst; clear E
  | |- context [exec respond (putS3ObjectContents ?c ?o) ?w] =>
      let E := fresh "E" in
      destruct (exec respond (putS3ObjectContents c o) w) as [[? ?] ?] eqn:E;
      apply putS3ObjectContents_spec in E; inversion E; subst; clear E
  | |- context [exec respond (deleteS3Object ?c ?b ?k) ?w] =>
      let E := fresh "E" in
      destruct (exec respond (deleteS3Object c b k) w) as [[? ?] ?] eqn:E;
      apply deleteS3Object_spec in E; inversion E; subst; clear E
  end; cbn.

(** A helper that reported an error ends the handler. *)
Ltac stop_on_error :=
  match goal with
  | H : diag.HasError ?d = true |- context [existsb diag.isError (diag.Append ?ds ?d)] =>
      change (existsb diag.isError (diag.Append ds d))
        with (diag.HasError (diag.Append ds d));
      rewrite (HasError_Append ds d), H, ?orb_true_r; cbn
  end.

(** A put that meets the write precondition is not rejected. *)
Ltac not_rejected :=
  match goal with
  | H : ∀ o', Some ?o = Some o' -> ¬ writable o' |- _ =>
      apply (H o eq_refl); repeat split; cbn; done
  end.

Ltac in_trace :=
  repeat match goal with
  | H : _ ∈ [] |- _ => apply elem_of_nil in H; destruct H
  | H : _ ∈ _ :: _ |- _ =>
      apply elem_of_cons in H; destruct H as [H | H];
      [try discriminate H; try (injection H as ? ?); subst |]
  end.

Lemma ElementsAs_no_diagnostics m tags d :
  ElementsAs m = (tags, d) -> d = [].
Proof. unfold ElementsAs. destruct m; by intros [= _ <-]. Qed.

(** [plan.Tags.ElementsAs] reports nothing. *)
Ltac decode_tags :=
  match goal with
  | |- context [ElementsAs ?m] =>
      let tags := fresh "tags" in
      let dt := fresh "dt" in
      let E := fresh "Etags" in
      destruct (ElementsAs m) as [tags dt] eqn:E;
      pose proof (ElementsAs_no_diagnostics _ _ _ E); subst dt; cbn
  end.

Lemma Create_ignored r req st w resp tr w' :
  exec respond (Create r req (resource.newResponse st)) w = (resp, tr, w') ->
  reports_no_current_version tr ->
  types.ValueBool (IgnoreEmpty (resource.Plan req)) = true ->
  (∃ d, resource.State resp = Some d ∧ Ignored d = types.BoolValue true ∧
        StateContentsSha256 d = types.StringNull ∧
        BucketContentsSha256 d = types.StringNull) ∧
  s3_calls tr = [] ∧ resource.HasError resp = false.
Proof.
  unfold Create, reports_no_current_version.
  destruct r as [sd [tc |] [sc |]]; cbn.
  2-4: intros [= <- <- <-] (ws & err & Hin & His); in_trace.
  helper_run.
  - intros [= <- <- <-] _ _. cbn. repeat split.
    eexists. repeat split; reflexivity.
  - intros [= <- <- <-] (ws & err' & Hin & His) Hie. in_trace.
    rewrite Hie, His in *. discriminate.
  - intros [= <- <- <-] (ws & err' & Hin & His) Hie. in_trace.
  - helper_run; [stop_on_error | |];
      intros [= <- <- <-] (ws & err' & Hin & His) Hie; in_trace.
Qed.

Lemma Update_ignored r req st w resp tr w' :
  exec respond (Update r req (resource.newResponse st)) w = (resp, tr, w') ->
  reports_no_current_version tr ->
  types.ValueBool (IgnoreEmpty (resource.Plan req)) = true ->
  (∃ d, resource.State resp = Some d ∧ Ignored d = types.BoolValue true ∧
        StateContentsSha256 d = types.StringNull ∧
        BucketContentsSha256 d = types.StringNull) ∧
  s3_calls tr = [] ∧ resource.HasError resp = false.
Proof.
  unfold Update, reports_no_current_version.
  destruct r as [sd [tc |] [sc |]]; cbn; try decode_tags.
  2-4: intros [= <- <- <-] (ws & err & Hin & His); in_trace.
  helper_run.
  - intros [= <- <- <-] _ _. cbn. repeat split.
    eexists. repeat split; reflexivity.
  - intros [= <- <- <-] (ws & err' & Hin & His) Hie. in_trace.
    rewrite Hie, His in *. discriminate.
  - intros [= <- <- <-] (ws & err' & Hin & His) Hie. in_trace.
  - helper_run; [stop_on_error | |];
      intros [= <- <- <-] (ws & err' & Hin & His) Hie; in_trace.
Qed.

(** The write path of Create: one put of the fetched bytes, no get. *)
Lemma Create_written r req st w resp tr w' S :
  exec respond (Create r req (resource.newResponse st)) w = (resp, tr, w') ->
  state_source_returns S tr ->
  S <> [] ->
  types.ValueString (Bucket (resource.Plan req)) <> "" ->
  types.ValueString (Key (resource.Plan req)) <> "" ->
  ∃ input res,
    puts tr = [CallPutObject input res] ∧
    s3.PutBody input = S ∧
    s3.PutBucket input = types.ValueString (Bucket (resource.Plan req)) ∧
    s3.PutKey input = types.ValueString (Key (resource.Plan req)) ∧
    gets tr = [] ∧
    match res with
    | None =>
        ∃ d, resource.State resp = Some d ∧
             StateContentsSha256 d =
               types.StringValue (hex.EncodeToString (sha256.Sum256 S)) ∧
             BucketContentsSha256 d =
               types.StringValue (hex.EncodeToString (sha256.Sum256 S))
    | Some _ => resource.State resp = st ∧ resource.HasError resp = true
    end.
Proof.
  unfold Create, state_source_returns.
  destruct r as [sd [tc |] [sc |]]; cbn.
  2-4: intros [= <- <- <-] (u & Hin); in_trace.
  helper_run.
  1-3: intros [= <- <- <-] (u & Hin); in_trace.
  helper_run; [stop_on_error | |];
    intros [= <- <- <-] (u & Hin) HS Hb Hk; in_trace.
  - exfalso. not_rejected.
  - eexists _, _. repeat split; cbn; try reflexivity.
  - eexists _, _. repeat split; cbn; try reflexivity.
    eexists. repeat split; reflexivity.
Qed.

Lemma Update_written r req st w resp tr w' S :
  exec respond (Update r req (resource.newResponse st)) w = (resp, tr, w') ->
  state_source_returns S tr ->
  S <> [] ->
  types.ValueString (Bucket (resource.Plan req)) <> "" ->
  types.ValueString (Key (resource.Plan req)) <> "" ->
  ∃ input res,
    puts tr = [CallPutObject input res] ∧
    s3.PutBody input = S ∧
    s3.PutBucket input = types.ValueString (Bucket (resource.Plan req)) ∧
    s3.PutKey input = types.ValueString (Key (resource.Plan req)) ∧
    gets tr = [] ∧
    match res with
    | None =>
        ∃ d, resource.State resp = Some d ∧
             StateContentsSha256 d =
               types.StringValue (hex.EncodeToString (sha256.Sum256 S)) ∧
             BucketContentsSha256 d =
               types.StringValue (hex.EncodeToString (sha256.Sum256 S))
    | Some _ => resource.State resp = st ∧ resource.HasError resp = true
    end.
Proof.
  unfold Update, state_source_returns.
  destruct r as [sd [tc |] [sc |]]; cbn; try decode_tags.
  2-4: intros [= <- <- <-] (u & Hin); in_trace.
  helper_run.
  1-3: intros [= <- <- <-] (u & Hin); in_trace.
  helper_run; [stop_on_error | |];
    intros [= <- <- <-] (u & Hin) HS Hb Hk; in_trace.
  - exfalso. not_rejected.
  - eexists _, _. repeat split; cbn; try reflexivity.
  - eexists _, _. repeat split; cbn; try reflexivity.
    eexists. repeat split; reflexivity.
Qed.

(** Read: each digest from its own source, and no write. *)
Lemma Read_digests r req st w resp tr w' S T :
  exec respond (Read r req (resource.newResponse st)) w = (resp, tr, w') ->
  state_source_returns S tr ->
  object_store_returns T tr ->
  (∃ d, resource.State resp = Some d ∧
        StateContentsSha256 d =
          types.StringValue (hex.EncodeToString (sha256.Sum256 S)) ∧
        BucketContentsSha256 d =
          types.StringValue (hex.EncodeToString (sha256.Sum256 T))) ∧
  puts tr = [] ∧ deletes tr = [] ∧ resource.HasError resp = false.
Proof.
  unfold Read, state_source_returns, object_store_returns.
  destruct r as [sd [tc |] [sc |]]; cbn.
  2-4: intros [= <- <- <-] (u & Hin); in_trace.
  helper_run.
  1-3: intros [= <- <- <-] (u & Hin) (i & Hin'); in_trace.
  helper_run; intros [= <- <- <-] (u & Hin) (i & Hin'); in_trace.
  cbn. repeat split. eexists. repeat split; reflexivity.
Qed.

(** Delete on a configured resource. *)
Lemma Delete_configured r req st w resp tr w' :
  exec respond (Delete r req (resource.newResponse st)) w = (resp, tr, w') ->
  validateS3ObjectResource (Some r) = [] ->
  (effectiveSoftDelete r (resource.PriorState req) = true ->
     deletes tr = [] ∧
     length (diag.Warnings (resource.Diagnostics resp)) = 1%nat ∧
     resource.HasError resp = false) ∧
  (effectiveSoftDelete r (resource.PriorState req) = false ->
     (∃ res, deletes tr =
               [CallDeleteObject
                  (s3.mkDeleteObjectInput
                     (types.ValueString (Bucket (resource.PriorState req)))
                     (types.ValueString (Key (resource.PriorState req))))
                  res]) ∧
     diag.Warnings (resource.Diagnostics resp) = []).
Proof.
  unfold Delete, effectiveSoftDelete.
  destruct r as [sd [tc |] [sc |]]; cbn; try (intros _ [=]; fail).
  destruct (sd || types.ValueBool (SoftDelete (resource.PriorState req))); cbn.
  - intros [= <- <- <-] _. split; [done | intros [=]].
  - helper_run; intros [= <- <- <-] _; (split; [intros [=] |]); intros _;
      (split; [eexists; reflexivity | reflexivity]).
Qed.

(** Delete never calls the state source, never touches [resp.State],
    and makes at most the one delete call. *)
Lemma Delete_frame r req resp0 w resp tr w' :
  exec respond (Delete r req resp0) w = (resp, tr, w') ->
  tfe_calls tr = [] ∧
  resource.State resp = resource.State resp0 ∧
  (tr = [] ∨
   ∃ res, tr = [CallDeleteObject
                  (s3.mkDeleteObjectInput
                     (types.ValueString (Bucket (resource.PriorState req)))
                     (types.ValueString (Key (resource.PriorState req))))
                  res] ∧
          effectiveSoftDelete r (resource.PriorState req) = false).
Proof.
  unfold Delete, effectiveSoftDelete. cbv zeta. unfold tfsdk_Get.
  repeat lazymatch goal with
  | |- context [exec respond (if ?b then _ else _) _] =>
      destruct b eqn:?; [intros [= <- <- <-]; cbn; auto |]
  end.
  destruct (s3Client r) as [sc |].
  - helper_run; intros [= <- <- <-]; cbn; repeat split; right; eexists; eauto.
  - intros [= <- <- <-]. cbn. auto.
Qed.

(** The record Create and Read hand back carries the recomputed id. *)
Lemma Create_sets_id r req w resp tr w' d :
  exec respond (Create r req (resource.newResponse None)) w = (resp, tr, w') ->
  resource.State resp = Some d ->
  Id d = newS3ObjectResourceID d.
Proof.
  unfold Create.
  destruct r as [sd [tc |] [sc |]]; cbn; try (intros [= <- <- <-] [=]; fail).
  helper_run; try (intros [= <- <- <-] [=]; fail).
  - intros [= <- <- <-] [= <-]. reflexivity.
  - helper_run; [stop_on_error | |]; intros [= <- <- <-] [=]; subst; reflexivity.
Qed.

Lemma Read_sets_id r req w resp tr w' d :
  exec respond (Read r req (resource.newResponse None)) w = (resp, tr, w') ->
  resource.State resp = Some d ->
  Id d = newS3ObjectResourceID d.
Proof.
  unfold Read.
  destruct r as [sd [tc |] [sc |]]; cbn; try (intros [= <- <- <-] [=]; fail).
  helper_run; try (intros [= <- <- <-] [=]; fail).
  - intros [= <- <- <-] [= <-]. reflexivity.
  - helper_run; intros [= <- <- <-] [=]; subst; reflexivity.
Qed.

(** Update hands back the planned id and the planned identifying fields:
    it never assigns [plan.Id]. *)
Lemma Update_keeps_planned_id r req w resp tr w' d :
  exec respond (Update r req (resource.newResponse None)) w = (resp, tr, w') ->
  resource.State resp = Some d ->
  Id d = Id (resource.Plan req) ∧
  newS3ObjectResourceID d = newS3ObjectResourceID (resource.Plan req).
Proof.
  unfold Update.
  destruct r as [sd [tc |] [sc |]]; cbn; try decode_tags;
    try (intros [= <- <- <-] [=]; fail).
  helper_run; try (intros [= <- <- <-] [=]; fail).
  - intros [= <- <- <-] [= <-]. split; reflexivity.
  - helper_run; [stop_on_error | |]; intros [= <- <- <-] [=]; subst;
      split; reflexivity.
Qed.

(** No put issued by Create carries a tag string, whatever the plan's
    tags are; the KMS key is passed on. *)
Lemma Create_put_untagged r req st w resp tr w' input res :
  exec respond (Create r req (resource.newResponse st)) w = (resp, tr, w') ->
  CallPutObject input res ∈ tr ->
  s3.Tagging input = None ∧
  s3.SSEKMSKeyId input =
    (if decide (types.ValueString (KmsKeyId (resource.Plan req)) = "")
     then None
     else Some (types.ValueString (KmsKeyId (resource.Plan req)))).
Proof.
  unfold Create.
  destruct r as [sd [tc |] [sc |]]; cbn.
  2-4: intros [= <- <- <-] Hin; in_trace.
  helper_run.
  1-3: intros [= <- <- <-] Hin; in_trace.
  helper_run; [stop_on_error | |]; intros [= <- <- <-] Hin; in_trace.
  all: split; [reflexivity |]; cbn.
  all: destruct (decide _) as [-> | Hne]; cbn; [reflexivity |].
  all: by rewrite bool_decide_eq_false_2.
Qed.

(** The put issued by Update carries the plan's tags, in an order in
    which [range] may visit them. *)
Lemma Update_put_tagged r req st w resp tr w' input res :
  exec respond (Update r req (resource.newResponse st)) w = (resp, tr, w') ->
  CallPutObject input res ∈ tr ->
  let tags := (ElementsAs (Tags (resource.Plan req))).1 in
  match s3.Tagging input with
  | None => size tags = 0%nat
  | Some s =>
      (0 < size tags)%nat ∧
      ∃ entries, range_order tags entries ∧ s = newTags_range entries
  end.
Proof.
  unfold Update.
  destruct r as [sd [tc |] [sc |]]; cbn; try decode_tags.
  2-4: intros [= <- <- <-] Hin; in_trace.
  helper_run.
  1-3: intros [= <- <- <-] Hin; in_trace.
  helper_run; [stop_on_error | |]; intros [= <- <- <-] Hin; in_trace.
  all: cbn; destruct (decide _) as [Hpos | Hzero]; [| lia].
  all: split; [exact Hpos |]; exists (map_to_list tags);
    split; [unfold range_order |]; reflexivity.
Qed.

Lemma no_s3_calls tr :
  s3_calls tr = [] -> puts tr = [] ∧ gets tr = [] ∧ deletes tr = [].
Proof.
  induction tr as [| c tr IH]; [done |].
  destruct c; cbn; intros H; try discriminate H; auto.
Qed.

(** ** The handlers, case by case *)

(** Bring the response a handler built into the form [mkResponse st ds]. *)
Ltac plain_response :=
  cbn [resource.Append resource.newResponse resource.AddWarning
       resource.State resource.Diagnostics State_Set tfsdk_Set
       diag.Append diag.AddWarning diag.AddError diag.Contains existsb app].

Lemma Create_cases r req st w resp tr w' :
  exec respond (Create r req (resource.newResponse st)) w = (resp, tr, w') ->
  validateS3ObjectResource (Some r) = [] ->
  sync_outcome OnCreate (resource.Plan req) st resp tr.
Proof.
  unfold Create.
  destruct r as [sd [tc |] [sc |]]; cbn; try (intros _ [=]; fail).
  helper_run.
  1-3: intros [= <- <- <-] _; plain_response;
    first [by apply so_ignored | by apply so_no_version | by apply so_no_download].
  helper_run; [stop_on_error | |]; intros [= <- <- <-] _; plain_response.
  - apply so_rejected; [done | | by rewrite HasError_Append].
    match goal with H : ∀ o', _ -> ¬ writable o' |- _ => exact (H _ eq_refl) end.
  - by apply (so_put_failed OnCreate).
  - by apply (so_written OnCreate).
Qed.

Lemma Update_cases r req st w resp tr w' :
  exec respond (Update r req (resource.newResponse st)) w = (resp, tr, w') ->
  validateS3ObjectResource (Some r) = [] ->
  sync_outcome OnUpdate (resource.Plan req) st resp tr.
Proof.
  unfold Update.
  destruct r as [sd [tc |] [sc |]]; cbn; try (intros _ [=]; fail).
  decode_tags.
  helper_run.
  1-3: intros [= <- <- <-] _; plain_response;
    first [by apply so_ignored | by apply so_no_version | by apply so_no_download].
  assert (tags = sent_tags OnUpdate (resource.Plan req)) as ->.
  { cbn. by rewrite Etags. }
  helper_run; [stop_on_error | |]; intros [= <- <- <-] _; plain_response.
  - apply so_rejected; [done | | by rewrite HasError_Append].
    match goal with H : ∀ o', _ -> ¬ writable o' |- _ => exact (H _ eq_refl) end.
  - by apply (so_put_failed OnUpdate).
  - by apply (so_written OnUpdate).
Qed.

Lemma Read_cases r req st w resp tr w' :
  exec respond (Read r req (resource.newResponse st)) w = (resp, tr, w') ->
  validateS3ObjectResource (Some r) = [] ->
  sync_outcome OnRead (resource.PriorState req) st resp tr.
Proof.
  unfold Read.
  destruct r as [sd [tc |] [sc |]]; cbn; try (intros _ [=]; fail).
  helper_run.
  1-3: intros [= <- <- <-] _; plain_response;
    first [by apply so_ignored | by apply so_no_version | by apply so_no_download].
  helper_run; intros [= <- <- <-] _; plain_response.
  - by apply so_no_object.
  - by apply so_broken_body.
  - by apply so_read.
Qed.

(** The three handlers that fetch the remote state, on a configured
    resource. *)
Lemma sync_cases h r req st w resp tr w' :
  fetches h = true ->
  exec respond (handle h r req (resource.newResponse st)) w = (resp, tr, w') ->
  validateS3ObjectResource (Some r) = [] ->
  sync_outcome h (decoded h req) st resp tr.
Proof.
  destruct h; cbn [handle decoded fetches]; try discriminate; intros _.
  - apply Create_cases.
  - apply Read_cases.
  - apply Update_cases.
Qed.

(** Without one of the clients a handler stops at the validation. *)
Lemma unconfigured_cases h r req st w resp tr w' :
  exec respond (handle h r req (resource.newResponse st)) w = (resp, tr, w') ->
  validateS3ObjectResource (Some r) <> [] ->
  resp = resource.mkResponse st (validateS3ObjectResource (Some r)) ∧ tr = [].
Proof.
  destruct r as [sd [tc |] [sc |]]; destruct h; cbn; try done;
    intros [= <- <- <-] _; split; reflexivity.
Qed.

(** ** The handlers, given the world's answers *)

Lemma getStateFile_missing client ws ignoreEmpty w err w1 :
  ignoreEmpty = true ->
  respond _ (ReadCurrent ws) w = (inr err, w1) ->
  errors.Is err ErrResourceNotFound = true ->
  exec respond (getStateFile client ws ignoreEmpty) w =
    (([], [], true), [CallReadCurrent ws (inr err)], w1).
Proof.
  intros -> Hanswer His. unfold getStateFile. cbn.
  rewrite Hanswer. cbn. rewrite His. reflexivity.
Qed.

Lemma getStateFile_fetched client ws ignoreEmpty w ver w1 S w2 :
  respond _ (ReadCurrent ws) w = (inl ver, w1) ->
  respond _ (Download (tfe.DownloadURL ver)) w1 = (inl S, w2) ->
  exec respond (getStateFile client ws ignoreEmpty) w =
    ((S, [], false),
     [CallReadCurrent ws (inl ver); CallDownload (tfe.DownloadURL ver) (inl S)],
     w2).
Proof.
  intros Hver HS. unfold getStateFile. cbn.
  rewrite Hver. cbn. rewrite HS. reflexivity.
Qed.

Lemma putS3ObjectContents_sent client o w :
  writable o ->
  exec respond (putS3ObjectContents client (Some o)) w =
    let '(res, w1) := respond _ (PutObject (putObjectInput o)) w in
    (match res with
     | None => []
     | Some err =>
         [errorDiag "s3 client" ("failed s3 put object: " +:+ errors.Error err)]
     end,
     [CallPutObject (putObjectInput o) res], w1).
Proof.
  intros Hw. unfold putS3ObjectContents. rewrite (validate_writable o Hw). cbn.
  destruct (respond _ (PutObject (putObjectInput o)) w) as [[err |] w1];
    reflexivity.
Qed.

Lemma getS3ObjectContents_read client bucket key w T w1 :
  respond _ (GetObject (s3.mkGetObjectInput bucket key)) w =
    (inl (s3.mkGetObjectOutput T None), w1) ->
  exec respond (getS3ObjectContents client bucket key) w =
    ((T, []),
     [CallGetObject (s3.mkGetObjectInput bucket key)
        (inl (s3.mkGetObjectOutput T None))],
     w1).
Proof.
  intros HT. unfold getS3ObjectContents. cbn. rewrite HT. reflexivity.
Qed.

(** Create and Update where the workspace has no current state version
    and [ignoreEmpty] is set. *)
Lemma write_run_ignored h r req st w err w1 :
  h = OnCreate ∨ h = OnUpdate ->
  validateS3ObjectResource (Some r) = [] ->
  types.ValueBool (IgnoreEmpty (resource.Plan req)) = true ->
  respond _ (ReadCurrent (types.ValueString (WorkspaceId (resource.Plan req)))) w =
    (inr err, w1) ->
  errors.Is err ErrResourceNotFound = true ->
  exec respond (handle h r req (resource.newResponse st)) w =
    (resource.mkResponse
       (Some (ignored_record (prepared h (resource.Plan req)))) [],
     [CallReadCurrent (types.ValueString (WorkspaceId (resource.Plan req)))
        (inr err)],
     w1).
Proof.
  intros Hh Hcfg Hie Hanswer His.
  destruct r as [sd [tc |] [sc |]]; cbn in Hcfg; try discriminate Hcfg.
  destruct Hh as [-> | ->]; cbn [handle prepared].
  - unfold Create. cbn.
    rewrite exec_bind, (getStateFile_missing _ _ _ _ _ _ Hie Hanswer His).
    reflexivity.
  - unfold Update. cbn. decode_tags.
    rewrite exec_bind, (getStateFile_missing _ _ _ _ _ _ Hie Hanswer His).
    reflexivity.
Qed.

(** Create and Update where the state source returns [S] and the write
    precondition holds: the put is sent, and its answer decides the
    response. *)
Lemma write_run_written h r req st w ver w1 S w2 :
  h = OnCreate ∨ h = OnUpdate ->
  validateS3ObjectResource (Some r) = [] ->
  respond _ (ReadCurrent (types.ValueString (WorkspaceId (resource.Plan req)))) w =
    (inl ver, w1) ->
  respond _ (Download (tfe.DownloadURL ver)) w1 = (inl S, w2) ->
  writable (put_options (resource.Plan req) S (sent_tags h (resource.Plan req))) ->
  exec respond (handle h r req (resource.newResponse st)) w =
    let input := putObjectInput
                   (put_options (resource.Plan req) S
                      (sent_tags h (resource.Plan req))) in
    let '(res, w3) := respond _ (PutObject input) w2 in
    (match res with
     | None =>
         resource.mkResponse
           (Some (synced_record (prepared h (resource.Plan req)) S S)) []
     | Some err =>
         resource.mkResponse st
           [errorDiag "s3 client"
              ("failed s3 put object: " +:+ errors.Error err)]
     end,
     [CallReadCurrent (types.ValueString (WorkspaceId (resource.Plan req)))
        (inl ver);
      CallDownload (tfe.DownloadURL ver) (inl S);
      CallPutObject input res],
     w3).
Proof.
  intros Hh Hcfg Hver HS Hw. cbv zeta.
  destruct r as [sd [tc |] [sc |]]; cbn in Hcfg; try discriminate Hcfg.
  destruct Hh as [-> | ->]; cbn [handle prepared].
  - unfold Create. cbn.
    rewrite exec_bind, (getStateFile_fetched _ _ _ _ _ _ _ _ Hver HS). cbn.
    rewrite exec_bind, (putS3ObjectContents_sent _ _ _ Hw).
    destruct (respond _ (PutObject _) w2) as [[err |] w3]; reflexivity.
  - unfold Update. cbn. decode_tags.
    assert (tags = sent_tags OnUpdate (resource.Plan req)) as ->.
    { cbn. by rewrite Etags. }
    rewrite exec_bind, (getStateFile_fetched _ _ _ _ _ _ _ _ Hver HS). cbn.
    rewrite exec_bind, (putS3ObjectContents_sent _ _ _ Hw).
    destruct (respond _ (PutObject _) w2) as [[err |] w3]; reflexivity.
Qed.

(** Read where the state source returns [S] and the object store [T]. *)
Lemma Read_run_read r req st w ver w1 S w2 T w3 :
  validateS3ObjectResource (Some r) = [] ->
  respond _ (ReadCurrent
               (types.ValueString (WorkspaceId (resource.PriorState req)))) w =
    (inl ver, w1) ->
  respond _ (Download (tfe.DownloadURL ver)) w1 = (inl S, w2) ->
  respond _ (GetObject
               (s3.mkGetObjectInput
                  (types.ValueString (Bucket (resource.PriorState req)))
                  (types.ValueString (Key (resource.PriorState req))))) w2 =
    (inl (s3.mkGetObjectOutput T None), w3) ->
  exec respond (handle OnRead r req (resource.newResponse st)) w =
    (resource.mkResponse
       (Some (synced_record (with_id (resource.PriorState req)) S T)) [],
     [CallReadCurrent
        (types.ValueString (WorkspaceId (resource.PriorState req))) (inl ver);
      CallDownload (tfe.DownloadURL ver) (inl S);
      CallGetObject
        (s3.mkGetObjectInput
           (types.ValueString (Bucket (resource.PriorState req)))
           (types.ValueString (Key (resource.PriorState req))))
        (inl (s3.mkGetObjectOutput T None))],
     w3).
Proof.
  intros Hcfg Hver HS HT.
  destruct r as [sd [tc |] [sc |]]; cbn in Hcfg; try discriminate Hcfg.
  cbn [handle]. unfold Read. cbn.
  rewrite exec_bind, (getStateFile_fetched _ _ _ _ _ _ _ _ Hver HS). cbn.
  rewrite exec_bind, (getS3ObjectContents_read _ _ _ _ _ _ HT).
  reflexivity.
Qed.

(** A zero-byte state is rejected by the write precondition: Create and
    Update stop after the download. *)
Lemma empty_state_is_rejected h r req st w resp tr w' :
  h = OnCreate ∨ h = OnUpdate ->
  exec respond (handle h r req (resource.newResponse st)) w = (resp, tr, w') ->
  state_source_returns [] tr ->
  s3_calls tr = [] ∧ resource.State resp = st ∧ resource.HasError resp = true.
Proof.
  intros Hh E (u & Hin).
  destruct (decide (validateS3ObjectResource (Some r) = [])) as [Hcfg | Hcfg].
  - assert (fetches h = true) as Hfetch by (by destruct Hh as [-> | ->]).
    pose proof (sync_cases _ _ _ _ _ _ _ _ Hfetch E Hcfg) as Hcase.
    inversion Hcase; subst; in_trace; cbn; try done.
    all: first
      [ by destruct Hh
      | match goal with
        | H : writable _ |- _ => destruct H as (_ & _ & Hc); cbn in Hc; done
        end ].
  - destruct (unconfigured_cases _ _ _ _ _ _ _ _ E Hcfg) as [-> ->]. in_trace.
Qed.

(** ** The claims about the handlers *)

(** C1: when the state source reports no current state version and the
    record's [ignoreEmpty] flag is true, Create and Update return a record
    with [ignored = true] and both digests null, without an error, and make
    no call to the object store at all: nothing is written and a
    pre-existing object is left as it is.  This holds of every run whose
    trace shows that report, and on a configured resource the report of the
    state source is all it takes: the run is then the one call to the state
    source.  A state of zero bytes is never written either: the handler
    stops with an error before any call to the object store. *)
Theorem ignored_state_is_never_written handler r req st w :
  handler = Create ∨ handler = Update ->
  let plan := resource.Plan req in
  let out := exec respond (handler r req (resource.newResponse st)) w in
  (types.ValueBool (IgnoreEmpty plan) = true ->
   (reports_no_current_version (trace out) ->
      (∃ d, resource.State (result out) = Some d ∧
            Ignored d = types.BoolValue true ∧
            StateContentsSha256 d = types.StringNull ∧
            BucketContentsSha256 d = types.StringNull) ∧
      puts (trace out) = [] ∧
      s3_calls (trace out) = [] ∧
      resource.HasError (result out) = false) ∧
   (validateS3ObjectResource (Some r) = [] ->
    ∀ err w1,
      respond _ (ReadCurrent (types.ValueString (WorkspaceId plan))) w =
        (inr err, w1) ->
      errors.Is err ErrResourceNotFound = true ->
      trace out =
        [CallReadCurrent (types.ValueString (WorkspaceId plan)) (inr err)] ∧
      world_after out = w1 ∧
      (∃ d, result out = resource.mkResponse (Some d) [] ∧
            Ignored d = types.BoolValue true ∧
            StateContentsSha256 d = types.StringNull ∧
            BucketContentsSha256 d = types.StringNull))) ∧
  (state_source_returns [] (trace out) ->
     s3_calls (trace out) = [] ∧
     resource.State (result out) = st ∧
     resource.HasError (result out) = true).
Proof.
  intros Hhandler. cbv zeta.
  assert (∃ h, (h = OnCreate ∨ h = OnUpdate) ∧ handler = handle h) as (h & Hh & ->).
  { destruct Hhandler as [-> | ->]; [exists OnCreate | exists OnUpdate]; auto. }
  split; [intros Hflag; split |].
  - intros Hreport.
    destruct (exec respond _ w) as [[resp tr] w'] eqn:E.
    cbn [result trace fst snd] in *.
    assert ((∃ d, resource.State resp = Some d ∧
                  Ignored d = types.BoolValue true ∧
                  StateContentsSha256 d = types.StringNull ∧
                  BucketContentsSha256 d = types.StringNull) ∧
            s3_calls tr = [] ∧ resource.HasError resp = false)
      as (Hrecord & Hs3 & Herr).
    { destruct Hh as [-> | ->].
      - exact (Create_ignored _ _ _ _ _ _ _ E Hreport Hflag).
      - exact (Update_ignored _ _ _ _ _ _ _ E Hreport Hflag). }
    destruct (no_s3_calls tr Hs3) as (Hputs & _ & _). auto.
  - intros Hcfg err w1 Hanswer His.
    rewrite (write_run_ignored h r req st w err w1 Hh Hcfg Hflag Hanswer His).
    cbn [result trace world_after fst snd].
    split; [reflexivity |]. split; [reflexivity |].
    eexists. split; [reflexivity |]. done.
  - destruct (exec respond _ w) as [[resp tr] w'] eqn:E.
    cbn [result trace fst snd]. intros Hempty.
    exact (empty_state_is_rejected h _ _ _ _ _ _ _ Hh E Hempty).
Qed.

(** C2, amended: when the state source returns non-empty bytes [S] and
    the record's bucket and key are non-empty, Create and Update issue
    exactly one put, to (bucket, key) with body [S], and no get; when that
    put succeeds the returned record has both digests equal to the
    lowercase hex SHA-256 of [S], and when it fails the response carries an
    error and the state it was given.  This holds of every run whose trace
    shows the state source returning [S], and on a configured resource the
    answers of the state source are all it takes: the run is then the two
    calls to the state source followed by the put, whose answer decides the
    response. *)
Theorem write_then_digest handler r req st w S :
  handler = Create ∨ handler = Update ->
  S <> [] ->
  types.ValueString (Bucket (resource.Plan req)) <> "" ->
  types.ValueString (Key (resource.Plan req)) <> "" ->
  let plan := resource.Plan req in
  let out := exec respond (handler r req (resource.newResponse st)) w in
  (state_source_returns S (trace out) ->
   ∃ input res,
     puts (trace out) = [CallPutObject input res] ∧
     s3.PutBody input = S ∧
     s3.PutBucket input = types.ValueString (Bucket plan) ∧
     s3.PutKey input = types.ValueString (Key plan) ∧
     gets (trace out) = [] ∧
     match res with
     | None =>
         ∃ d, resource.State (result out) = Some d ∧
              StateContentsSha256 d =
                types.StringValue (hex.EncodeToString (sha256.Sum256 S)) ∧
              BucketContentsSha256 d =
                types.StringValue (hex.EncodeToString (sha256.Sum256 S))
     | Some _ =>
         resource.State (result out) = st ∧
         resource.HasError (result out) = true
     end) ∧
  (validateS3ObjectResource (Some r) = [] ->
   ∀ ver w1 w2,
     respond _ (ReadCurrent (types.ValueString (WorkspaceId plan))) w =
       (inl ver, w1) ->
     respond _ (Download (tfe.DownloadURL ver)) w1 = (inl S, w2) ->
     ∃ input,
       s3.PutBody input = S ∧
       s3.PutBucket input = types.ValueString (Bucket plan) ∧
       s3.PutKey input = types.ValueString (Key plan) ∧
       let '(res, w3) := respond _ (PutObject input) w2 in
       trace out =
         [CallReadCurrent (types.ValueString (WorkspaceId plan)) (inl ver);
          CallDownload (tfe.DownloadURL ver) (inl S);
          CallPutObject input res] ∧
       world_after out = w3 ∧
       match res with
       | None =>
           ∃ d, result out = resource.mkResponse (Some d) [] ∧
                StateContentsSha256 d =
                  types.StringValue (hex.EncodeToString (sha256.Sum256 S)) ∧
                BucketContentsSha256 d =
                  types.StringValue (hex.EncodeToString (sha256.Sum256 S))
       | Some _ =>
           resource.State (result out) = st ∧
           resource.HasError (result out) = true
       end).
Proof.
  intros Hhandler HS Hbucket Hkey. cbv zeta. split.
  - intros Hstate.
    destruct (exec respond _ w) as [[resp tr] w'] eqn:E.
    cbn [result trace fst snd] in *.
    destruct Hhandler as [-> | ->].
    + exact (Create_written _ _ _ _ _ _ _ _ E Hstate HS Hbucket Hkey).
    + exact (Update_written _ _ _ _ _ _ _ _ E Hstate HS Hbucket Hkey).
  - intros Hcfg ver w1 w2 Hver Hdown.
    assert (∃ h, (h = OnCreate ∨ h = OnUpdate) ∧ handler = handle h)
      as (h & Hh & ->).
    { destruct Hhandler as [-> | ->]; [exists OnCreate | exists OnUpdate]; auto. }
    assert (writable (put_options (resource.Plan req) S
                        (sent_tags h (resource.Plan req)))) as Hw.
    { repeat split; done. }
    pose proof (write_run_written h r req st w ver w1 S w2 Hh Hcfg Hver Hdown Hw)
      as Hrun. cbv zeta in Hrun.
    exists (putObjectInput (put_options (resource.Plan req) S
                              (sent_tags h (resource.Plan req)))).
    split; [reflexivity |]. split; [reflexivity |]. split; [reflexivity |].
    rewrite Hrun.
    destruct (respond _ (PutObject _) w2) as [[err |] w3];
      cbn [result trace world_after fst snd].
    + split; [reflexivity |]. split; [reflexivity |]. done.
    + split; [reflexivity |]. split; [reflexivity |].
      eexists. split; [reflexivity |]. by destruct Hh as [-> | ->].
Qed.

(** C3: when the state source returns [S] and the object store returns
    [T], Read returns a record whose [stateContentsSha256] is the hex
    SHA-256 of [S] and whose [bucketContentsSha256] is the hex SHA-256 of
    [T], each from its own fetch, and issues no put and no delete; the two
    fields differ exactly when the SHA-256 checksums of [S] and [T] differ,
    so for [S] different from [T] they differ unless the two collide under
    SHA-256.  This holds of every run whose trace shows the two returns,
    and on a configured resource the answers of the two services are all it
    takes: the run is then the two calls to the state source followed by the
    get of the record's object. *)
Theorem Read_reports_both_digests r req st w S T :
  let data := resource.PriorState req in
  let out := exec respond (Read r req (resource.newResponse st)) w in
  (state_source_returns S (trace out) ->
   object_store_returns T (trace out) ->
   ∃ d, resource.State (result out) = Some d ∧
        StateContentsSha256 d =
          types.StringValue (hex.EncodeToString (sha256.Sum256 S)) ∧
        BucketContentsSha256 d =
          types.StringValue (hex.EncodeToString (sha256.Sum256 T)) ∧
        puts (trace out) = [] ∧
        deletes (trace out) = [] ∧
        (StateContentsSha256 d <> BucketContentsSha256 d <->
         sha256.Sum256 S <> sha256.Sum256 T) ∧
        (S <> T ->
         (sha256.Sum256 S = sha256.Sum256 T -> S = T) ->
         StateContentsSha256 d <> BucketContentsSha256 d)) ∧
  (validateS3ObjectResource (Some r) = [] ->
   ∀ ver w1 w2 w3,
     respond _ (ReadCurrent (types.ValueString (WorkspaceId data))) w =
       (inl ver, w1) ->
     respond _ (Download (tfe.DownloadURL ver)) w1 = (inl S, w2) ->
     respond _ (GetObject
                  (s3.mkGetObjectInput (types.ValueString (Bucket data))
                                       (types.ValueString (Key data)))) w2 =
       (inl (s3.mkGetObjectOutput T None), w3) ->
     trace out =
       [CallReadCurrent (types.ValueString (WorkspaceId data)) (inl ver);
        CallDownload (tfe.DownloadURL ver) (inl S);
        CallGetObject
          (s3.mkGetObjectInput (types.ValueString (Bucket data))
                               (types.ValueString (Key data)))
          (inl (s3.mkGetObjectOutput T None))] ∧
     world_after out = w3 ∧
     ∃ d, result out = resource.mkResponse (Some d) [] ∧
          StateContentsSha256 d =
            types.StringValue (hex.EncodeToString (sha256.Sum256 S)) ∧
          BucketContentsSha256 d =
            types.StringValue (hex.EncodeToString (sha256.Sum256 T))).
Proof.
  cbv zeta. split.
  - intros Hstate Hobject.
    destruct (exec respond _ w) as [[resp tr] w'] eqn:E.
    cbn [result trace fst snd] in *.
    destruct (Read_digests _ _ _ _ _ _ _ _ _ E Hstate Hobject)
      as ((d & Hd & HS & HT) & Hputs & Hdeletes & _).
    assert (StateContentsSha256 d <> BucketContentsSha256 d <->
            sha256.Sum256 S <> sha256.Sum256 T) as Hdiffer.
    { split.
      - intros Hne Heq. apply Hne. rewrite HS, HT, Heq. reflexivity.
      - intros Hne Heq. apply Hne. rewrite HS, HT in Heq.
        exact (StringValue_hex_inj _ _ Heq). }
    exists d. repeat split; try assumption; try apply Hdiffer.
    intros Hne Hfree. apply Hdiffer. intros Heq. exact (Hne (Hfree Heq)).
  - intros Hcfg ver w1 w2 w3 Hver Hdown Hget.
    change (Read r req (resource.newResponse st))
      with (handle OnRead r req (resource.newResponse st)).
    rewrite (Read_run_read r req st w ver w1 S w2 T w3 Hcfg Hver Hdown Hget).
    cbn [result trace world_after fst snd].
    split; [reflexivity |]. split; [reflexivity |].
    eexists. split; [reflexivity |]. done.
Qed.

(** C6, amended: on a resource whose two clients are configured, with
    effective soft delete the OR of the provider-wide default and the
    record's flag: if it is true, Delete issues no delete call and produces
    exactly one warning and no error; if it is false, Delete issues exactly
    one delete call, for the record's bucket and key, and no warning. *)
Theorem Delete_honours_soft_delete r req st w :
  validateS3ObjectResource (Some r) = [] ->
  let out := exec respond (Delete r req (resource.newResponse st)) w in
  let data := resource.PriorState req in
  (effectiveSoftDelete r data = true ->
     deletes (trace out) = [] ∧
     length (diag.Warnings (resource.Diagnostics (result out))) = 1%nat ∧
     resource.HasError (result out) = false) ∧
  (effectiveSoftDelete r data = false ->
     (∃ res, deletes (trace out) =
               [CallDeleteObject
                  (s3.mkDeleteObjectInput (types.ValueString (Bucket data))
                                          (types.ValueString (Key data)))
                  res]) ∧
     diag.Warnings (resource.Diagnostics (result out)) = []).
Proof.
  intros Hconfigured out data. subst out data.
  destruct (exec respond _ w) as [[resp tr] w'] eqn:E.
  cbn [result trace fst snd].
  exact (Delete_configured _ _ _ _ _ _ _ E Hconfigured).
Qed.

(** C7: a [putS3ObjectContents] call whose contents are empty, or whose
    bucket or key is the empty string, returns an error diagnostic and makes
    no call at all; every call it makes is the one put, and it is made only
    when contents, bucket and key are all non-empty. *)
Theorem put_needs_bucket_key_and_contents client o w :
  let out := exec respond (putS3ObjectContents client (Some o)) w in
  (optContents o = [] ∨ optBucket o = "" ∨ optKey o = "" ->
     diag.HasError (result out) = true ∧ trace out = []) ∧
  (∀ c, c ∈ trace out ->
     (∃ res, c = CallPutObject (putObjectInput o) res) ∧
     optContents o <> [] ∧ optBucket o <> "" ∧ optKey o <> "").
Proof.
  intros out. subst out.
  destruct (exec respond _ w) as [[d tr] w'] eqn:E.
  cbn [result trace fst snd].
  apply putS3ObjectContents_spec in E. inversion E; subst.
  - split; [done | intros c Hc; in_trace].
  - match goal with H : writable o |- _ => destruct H as (Hb & Hk & Hc) end.
    split; [intros [? | [? | ?]]; done |].
    intros c Hin. in_trace. eauto.
  - match goal with H : writable o |- _ => destruct H as (Hb & Hk & Hc) end.
    split; [intros [? | [? | ?]]; done |].
    intros c Hin. in_trace. eauto.
Qed.


(** C10: Delete never calls the state source and never changes the
    record in [resp.State]; the only call it can make is the one delete of
    the record's object, made only when soft delete is off, and the rest of
    its output is diagnostics. *)
Theorem Delete_touches_only_the_object r req resp0 w :
  let out := exec respond (Delete r req resp0) w in
  let data := resource.PriorState req in
  tfe_calls (trace out) = [] ∧
  resource.State (result out) = resource.State resp0 ∧
  (trace out = [] ∨
   ∃ res, trace out =
            [CallDeleteObject
               (s3.mkDeleteObjectInput (types.ValueString (Bucket data))
                                       (types.ValueString (Key data)))
               res] ∧
          effectiveSoftDelete r data = false).
Proof.
  intros out data. subst out data.
  destruct (exec respond _ w) as [[resp tr] w'] eqn:E.
  cbn [result trace fst snd].
  exact (Delete_frame _ _ _ _ _ _ _ E).
Qed.
(** ** Further properties of the handlers *)

(** Replace the run by its response and trace, and split on whether the
    resource passes [validateS3ObjectResource]. *)
Ltac run_cases E Hcfg :=
  match goal with
  | |- context [exec respond (handle ?h ?r ?req (resource.newResponse ?st)) ?w] =>
      let resp := fresh "resp" in
      let tr := fresh "tr" in
      let w' := fresh "w'" in
      destruct (exec respond (handle h r req (resource.newResponse st)) w)
        as [[resp tr] w'] eqn:E;
      cbn [result trace world_after fst snd];
      destruct (decide (validateS3ObjectResource (Some r) = [])) as [Hcfg | Hcfg]
  end.

(** The case of a rejected put: the response carries the error. *)
Ltac by_rejection :=
  match goal with
  | H : diag.HasError ?d = true |- _ =>
      unfold diag.HasError in H; rewrite H; done
  end.

(** X1: a handler called on a resource that lacks one of its clients
    makes no remote call, leaves [resp.State] as it was, and reports exactly
    one error, the missing S3 client first. *)
Theorem handlers_need_both_clients h r req st w :
  s3Client r = None ∨ tfeClient r = None ->
  let out := exec respond (handle h r req (resource.newResponse st)) w in
  trace out = [] ∧
  resource.State (result out) = st ∧
  resource.Diagnostics (result out) =
    [errorDiag "provider"
       match s3Client r with
       | None => "nil s3 client"
       | Some _ => "nil tfe client"
       end].
Proof.
  intros Hnil. cbv zeta. run_cases E Hcfg.
  - exfalso. destruct r as [sd [tc |] [sc |]]; cbn in *;
      (discriminate Hcfg || (destruct Hnil; discriminate)).
  - destruct (unconfigured_cases _ _ _ _ _ _ _ _ E Hcfg) as [-> ->].
    destruct r as [sd [tc |] [sc |]]; cbn in *; try done.
Qed.

(** X2: in Create, Read and Update, a failed call to the state source
    that is not the ignored case (a failed download, a failure other than
    not-found, or any failure without [ignoreEmpty]) ends the handler: one
    error, [resp.State] as it was, and no call to the object store. *)
Theorem source_failure_stops_before_the_store h r req st w c err :
  fetches h = true ->
  let out := exec respond (handle h r req (resource.newResponse st)) w in
  c ∈ trace out ->
  is_tfe_call c = true ->
  call_error c = Some err ->
  types.ValueBool (IgnoreEmpty (decoded h req)) && is_read_current c &&
    errors.Is err ErrResourceNotFound = false ->
  resource.HasError (result out) = true ∧
  length (resource.Diagnostics (result out)) = 1%nat ∧
  resource.State (result out) = st ∧
  s3_calls (trace out) = [].
Proof.
  intros Hfetch. cbv zeta. run_cases E Hcfg.
  - pose proof (sync_cases _ _ _ _ _ _ _ _ Hfetch E Hcfg) as Hcase.
    intros Hin Htfe Hfailed Hnot.
    inversion Hcase; subst; in_trace; cbn in *; try discriminate; try done.
    injection Hfailed as <-.
    match goal with
    | H1 : types.ValueBool _ = true, H2 : errors.Is _ _ = true |- _ =>
        rewrite H1, H2 in Hnot; discriminate Hnot
    end.
  - destruct (unconfigured_cases _ _ _ _ _ _ _ _ E Hcfg) as [-> ->].
    intros Hin. in_trace.
Qed.

(** X3: in the ignored case Read returns the record marked ignored,
    with both digests null and the id recomputed, reports nothing, and stops
    after the one call to the state source: the object store is not read. *)
Theorem Read_ignored_skips_the_store r req st w :
  let data := resource.PriorState req in
  let out := exec respond (handle OnRead r req (resource.newResponse st)) w in
  reports_no_current_version (trace out) ->
  types.ValueBool (IgnoreEmpty data) = true ->
  (∃ d, result out = resource.mkResponse (Some d) [] ∧
        Ignored d = types.BoolValue true ∧
        StateContentsSha256 d = types.StringNull ∧
        BucketContentsSha256 d = types.StringNull ∧
        Id d = newS3ObjectResourceID data) ∧
  (∃ err, trace out =
            [CallReadCurrent (types.ValueString (WorkspaceId data)) (inr err)]) ∧
  gets (trace out) = [].
Proof.
  cbv zeta. run_cases E Hcfg.
  - pose proof (sync_cases OnRead _ _ _ _ _ _ _ eq_refl E Hcfg) as Hcase.
    intros (ws & err & Hin & His) Hie.
    inversion Hcase; subst; in_trace; cbn in *; try done.
    + match goal with
      | H : types.ValueBool _ && errors.Is _ _ = false |- _ =>
          rewrite Hie, His in H; discriminate H
      end.
    + split; [| split; [by eexists | done]].
      eexists. split; [reflexivity |]. done.
  - destruct (unconfigured_cases _ _ _ _ _ _ _ _ E Hcfg) as [-> ->].
    intros (ws & err & Hin & His). in_trace.
Qed.

(** X4: when the get of the object fails, or its body cannot be read
    to the end, Read reports that one error, leaves [resp.State] as it was,
    and writes nothing. *)
Theorem Read_surfaces_store_failure r req st w input res err :
  let out := exec respond (handle OnRead r req (resource.newResponse st)) w in
  CallGetObject input res ∈ trace out ->
  call_error (CallGetObject input res) = Some err ->
  resource.Diagnostics (result out) =
    [errorDiag "s3 client"
       (match res with
        | inr _ => "failed to get object: "
        | inl _ => "failed to read body: "
        end +:+ errors.Error err)] ∧
  resource.State (result out) = st ∧
  puts (trace out) = [] ∧
  deletes (trace out) = [].
Proof.
  cbv zeta. run_cases E Hcfg.
  - pose proof (sync_cases OnRead _ _ _ _ _ _ _ eq_refl E Hcfg) as Hcase.
    intros Hin Hfailed.
    inversion Hcase; subst; in_trace; cbn in *; try done.
    + by injection Hfailed as <-.
    + by injection Hfailed as <-.
  - destruct (unconfigured_cases _ _ _ _ _ _ _ _ E Hcfg) as [-> ->].
    intros Hin. in_trace.
Qed.

(** X5: the order of calls in Create, Read and Update.  The state
    source is asked for the current version of the record's workspace, then
    for the download of that version; all calls to the state source come
    before the object store's; the store is called at most once, and only
    after a download that succeeded: by a put in Create and Update, by a get
    of the record's bucket and key in Read, and never by a delete. *)
Theorem fetch_comes_before_the_store h r req st w :
  fetches h = true ->
  let data := decoded h req in
  let tr := trace (exec respond (handle h r req (resource.newResponse st)) w) in
  tr = tfe_calls tr ++ s3_calls tr ∧
  (∀ ws res, CallReadCurrent ws res ∈ tr ->
     ws = types.ValueString (WorkspaceId data)) ∧
  (∀ u res, CallDownload u res ∈ tr ->
     ∃ ver, CallReadCurrent (types.ValueString (WorkspaceId data)) (inl ver) ∈ tr ∧
            u = tfe.DownloadURL ver) ∧
  (length (tfe_calls tr) <= 2)%nat ∧
  (length (s3_calls tr) <= 1)%nat ∧
  (s3_calls tr <> [] -> ∃ S, state_source_returns S tr) ∧
  deletes tr = [] ∧
  match h with OnRead => puts tr = [] | _ => gets tr = [] end ∧
  (∀ input res, CallGetObject input res ∈ tr ->
     input = s3.mkGetObjectInput (types.ValueString (Bucket data))
                                 (types.ValueString (Key data))).
Proof.
  intros Hfetch. cbv zeta. run_cases E Hcfg.
  - pose proof (sync_cases _ _ _ _ _ _ _ _ Hfetch E Hcfg) as Hcase.
    inversion Hcase; subst; cbn.
    all: repeat split;
      try (intros ?; intros; in_trace; eauto using list_elem_of_here; fail);
      try lia; try done;
      try (intros _; eexists; eexists; apply list_elem_of_further,
             list_elem_of_here; fail);
      try (destruct h; done).
    all: intros; in_trace; eexists; split; [apply list_elem_of_here | done].
  - destruct (unconfigured_cases _ _ _ _ _ _ _ _ E Hcfg) as [-> ->]. cbn.
    repeat split; try lia; try done; try (destruct h; done);
      intros; in_trace.
Qed.

(** X6: every put a handler issues has for body the bytes the state
    source returned, which are not empty, goes to the record's bucket and
    key, neither of them empty, declares the body's length, the content
    type application/json and the SHA-256 checksum algorithm, and asks for
    KMS encryption with the record's key exactly when that key is not the
    empty string. *)
Theorem puts_are_well_formed h r req st w input res :
  let data := decoded h req in
  let out := exec respond (handle h r req (resource.newResponse st)) w in
  CallPutObject input res ∈ trace out ->
  state_source_returns (s3.PutBody input) (trace out) ∧
  s3.PutBody input <> [] ∧
  s3.PutBucket input = types.ValueString (Bucket data) ∧
  s3.PutBucket input <> "" ∧
  s3.PutKey input = types.ValueString (Key data) ∧
  s3.PutKey input <> "" ∧
  s3.ContentLength input = Z.of_nat (length (s3.PutBody input)) ∧
  s3.ContentType input = "application/json" ∧
  s3.PutChecksumAlgorithm input = s3.ChecksumAlgorithmSha256 ∧
  (if decide (types.ValueString (KmsKeyId data) = "")
   then s3.PutServerSideEncryption input = None ∧ s3.SSEKMSKeyId input = None
   else s3.PutServerSideEncryption input = Some s3.ServerSideEncryptionAwsKms ∧
        s3.SSEKMSKeyId input = Some (types.ValueString (KmsKeyId data))).
Proof.
  cbv zeta.
  destruct (fetches h) eqn:Hfetch.
  - run_cases E Hcfg.
    + pose proof (sync_cases _ _ _ _ _ _ _ _ Hfetch E Hcfg) as Hcase.
      intros Hin.
      inversion Hcase; subst; in_trace.
      all: match goal with
           | H : writable _ |- _ => destruct H as (Hb & Hk & Hc); cbn in Hb, Hk, Hc
           end.
      all: cbn; repeat split; try done;
        try (eexists; apply list_elem_of_further, list_elem_of_here).
      all: destruct (decide _) as [-> | Hne]; cbn; [done |];
        by rewrite bool_decide_eq_false_2.
    + destruct (unconfigured_cases _ _ _ _ _ _ _ _ E Hcfg) as [-> ->].
      intros Hin. in_trace.
  - destruct h; try discriminate Hfetch. cbn [handle].
    destruct (exec respond _ w) as [[resp tr] w'] eqn:E.
    cbn [result trace fst snd].
    destruct (Delete_frame _ _ _ _ _ _ _ E) as (_ & _ & [-> | (r' & -> & _)]);
      intros Hin; in_trace.
Qed.

(** The shape of a digest field. *)
Lemma EncodeToString_length (src : list byte) :
  String.length (hex.EncodeToString src) = (2 * length src)%nat.
Proof. induction src as [| v src IH]; cbn; [done | rewrite IH; lia]. Qed.

Lemma EncodeToString_lower_hex (src : list byte) :
  all_chars lower_hex (hex.EncodeToString src) = true.
Proof.
  induction src as [| v src IH]; [done |].
  cbn [hex.EncodeToString all_chars]. rewrite IH.
  by destruct v; vm_compute.
Qed.

Lemma sha256Contents_shape (contents : list byte) :
  ∃ s, sha256Contents contents = types.StringValue s ∧ is_digest s.
Proof.
  eexists. split; [reflexivity |]. split.
  - by rewrite EncodeToString_length, Sum256_length.
  - apply EncodeToString_lower_hex.
Qed.

(** X7: [sha256Contents] always returns a known string of 64
    lowercase hex digits, and two contents get the same string exactly when
    their SHA-256 checksums are equal. *)
Theorem sha256Contents_is_a_digest (contents contents' : list byte) :
  (∃ s, sha256Contents contents = types.StringValue s ∧ is_digest s) ∧
  (sha256Contents contents = sha256Contents contents' ↔
   sha256.Sum256 contents = sha256.Sum256 contents').
Proof.
  split; [apply sha256Contents_shape |].
  - unfold sha256Contents. cbv zeta. split.
    + apply StringValue_hex_inj.
    + by intros ->.
Qed.

(** X8: Create, Read and Update set [resp.State] exactly when they
    report no error: with an error the state is the one they were given;
    without, it is a record with the configuration of the decoded one and
    the response carries no diagnostic at all. *)
Theorem state_is_set_unless_an_error h r req st w :
  fetches h = true ->
  let data := decoded h req in
  let out := exec respond (handle h r req (resource.newResponse st)) w in
  if resource.HasError (result out)
  then resource.State (result out) = st
  else resource.Diagnostics (result out) = [] ∧
       ∃ d, resource.State (result out) = Some d ∧ same_configuration d data.
Proof.
  intros Hfetch. cbv zeta. run_cases E Hcfg.
  - pose proof (sync_cases _ _ _ _ _ _ _ _ Hfetch E Hcfg) as Hcase.
    inversion Hcase; subst; cbn; try done; try by_rejection.
    all: split; [done |]; eexists; (split; [done |]);
      first [done | by destruct h].
  - destruct (unconfigured_cases _ _ _ _ _ _ _ _ E Hcfg) as [-> ->].
    cbn [resource.HasError resource.Diagnostics resource.State].
    destruct r as [sd [tc |] [sc |]]; cbn in *; done.
Qed.

(** X9: in a record that Create, Read or Update returns, the three
    computed fields go together: either [ignored] is true and both digests
    are null, or [ignored] is false and both digests are known strings of 64
    lowercase hex digits, which after Create and Update are equal. *)
Theorem returned_digests_go_together h r req st w :
  fetches h = true ->
  let out := exec respond (handle h r req (resource.newResponse st)) w in
  resource.HasError (result out) = false ->
  ∃ d, resource.State (result out) = Some d ∧
       ((Ignored d = types.BoolValue true ∧
         StateContentsSha256 d = types.StringNull ∧
         BucketContentsSha256 d = types.StringNull) ∨
        (Ignored d = types.BoolValue false ∧
         ∃ s t, StateContentsSha256 d = types.StringValue s ∧
                BucketContentsSha256 d = types.StringValue t ∧
                is_digest s ∧ is_digest t ∧
                match h with OnRead => True | _ => s = t end)).
Proof.
  intros Hfetch. cbv zeta. run_cases E Hcfg.
  - pose proof (sync_cases _ _ _ _ _ _ _ _ Hfetch E Hcfg) as Hcase.
    inversion Hcase; subst; cbn; try done; try by_rejection.
    + intros _. eexists. split; [done |]. by left.
    + intros _. eexists. split; [done |]. right. split; [done |].
      destruct (sha256Contents_shape state) as (s & Hs & Hd).
      exists s, s. cbn. rewrite Hs. repeat split; try apply Hd. by destruct h.
    + intros _. eexists. split; [done |]. right. split; [done |].
      destruct (sha256Contents_shape state) as (s & Hs & Hd).
      destruct (sha256Contents_shape contents) as (t & Ht & Hd').
      exists s, t. cbn. rewrite Hs, Ht. repeat split; try apply Hd; apply Hd'.
  - destruct (unconfigured_cases _ _ _ _ _ _ _ _ E Hcfg) as [-> ->].
    destruct r as [sd [tc |] [sc |]]; cbn in *; done.
Qed.

(** X10: a record that Create or Read returns has for id its own
    workspace id, bucket and key, joined by slashes. *)
Theorem Create_and_Read_return_the_id h r req st w :
  h = OnCreate ∨ h = OnRead ->
  let out := exec respond (handle h r req (resource.newResponse st)) w in
  resource.HasError (result out) = false ->
  ∃ d, resource.State (result out) = Some d ∧
       Id d = types.StringValue
                (types.ValueString (WorkspaceId d) +:+ "/" +:+
                 types.ValueString (Bucket d) +:+ "/" +:+
                 types.ValueString (Key d)).
Proof.
  intros Hh. cbv zeta.
  assert (fetches h = true) as Hfetch by (by destruct Hh as [-> | ->]).
  run_cases E Hcfg.
  - pose proof (sync_cases _ _ _ _ _ _ _ _ Hfetch E Hcfg) as Hcase.
    inversion Hcase; subst; cbn; try done; try by_rejection.
    all: intros _; eexists; (split; [done |]);
      first [done | by destruct Hh as [-> | ->]].
  - destruct (unconfigured_cases _ _ _ _ _ _ _ _ E Hcfg) as [-> ->].
    destruct r as [sd [tc |] [sc |]]; cbn in *; done.
Qed.

(** X11: the tag string of a put issued by Update decodes to the
    plan's tags; the put carries no tag string exactly when the plan has no
    tags (an empty, null or unknown map). *)
Theorem Update_tagging_decodes_to_the_plan r req st w input res :
  let tags := (ElementsAs (Tags (resource.Plan req))).1 in
  let out := exec respond (handle OnUpdate r req (resource.newResponse st)) w in
  CallPutObject input res ∈ trace out ->
  match s3.Tagging input with
  | None => tags = ∅
  | Some s => tags <> ∅ ∧ list_to_map <$> parse_tags s = Some tags
  end.
Proof.
  cbv zeta. cbn [handle].
  destruct (exec respond _ w) as [[resp tr] w'] eqn:E.
  cbn [result trace fst snd]. intros Hin.
  pose proof (Update_put_tagged _ _ _ _ _ _ _ _ _ E Hin) as Htag.
  cbv zeta in Htag.
  destruct (s3.Tagging input) as [s |].
  - destruct Htag as (Hpos & entries & Hrange & ->).
    assert ((ElementsAs (Tags (resource.Plan req))).1 <> ∅) as Hne.
    { intros Hempty. rewrite Hempty, map_size_empty in Hpos. lia. }
    split; [exact Hne |]. unfold range_order in Hrange.
    destruct (parse_tags_newTags_range entries) as [-> _].
    + intros ->. apply Permutation_nil in Hrange.
      by apply map_to_list_empty_iff in Hrange.
    + cbn. f_equal. symmetry. apply list_to_map_flip. by symmetry.
  - by apply map_size_empty_iff.
Qed.

(** X12: the diagnostics of Delete on a configured resource.  With
    soft delete on: the one warning naming the bucket and the key.  With it
    off: nothing when the delete call succeeds, and the one error carrying
    the store's message when it fails. *)
Theorem Delete_reports_what_the_store_said r req st w :
  validateS3ObjectResource (Some r) = [] ->
  let data := resource.PriorState req in
  let out := exec respond (handle OnDelete r req (resource.newResponse st)) w in
  if effectiveSoftDelete r data
  then trace out = [] ∧
       resource.Diagnostics (result out) =
         [diag.mkDiagnostic diag.SeverityWarning "using soft delete"
            ("bucket: " +:+ types.ValueString (Bucket data) +:+
             ", key: " +:+ types.ValueString (Key data))]
  else ∃ res,
       trace out =
         [CallDeleteObject
            (s3.mkDeleteObjectInput (types.ValueString (Bucket data))
                                    (types.ValueString (Key data))) res] ∧
       resource.Diagnostics (result out) =
         match res with
         | None => []
         | Some err =>
             [errorDiag "s3 client"
                ("failed to delete s3 object: " +:+ errors.Error err)]
         end.
Proof.
  intros Hcfg. cbv zeta. cbn [handle]. unfold Delete, effectiveSoftDelete.
  destruct r as [sd [tc |] [sc |]]; cbn in *; try discriminate Hcfg.
  destruct (sd || types.ValueBool (SoftDelete (resource.PriorState req))); cbn.
  - done.
  - destruct (exec respond _ w) as [[resp tr] w'] eqn:E.
    cbn [result trace fst snd]. revert E.
    helper_run; intros [= <- <- <-]; eexists; split; reflexivity.
Qed.


End Execution.

(** ** The claims on sample inputs *)

(** Membership in a computed trace. *)
Ltac in_computed_trace :=
  vm_compute; repeat first [apply list_elem_of_here | apply list_elem_of_further].

Lemma sample_tags_not_empty :
  ({[ "a" := "1"; "b" := "x y" ]} : gmap string string) <> ∅.
Proof.
  intros H. apply (f_equal (λ m : gmap string string, m !! "a")) in H.
  vm_compute in H. discriminate H.
Qed.

Lemma newTags_round_trip_witness :
  let tags : gmap string string := {[ "a" := "1"; "b" := "x y" ]} in
  newTags tags = strings.Join (List.map tag_pair (map_to_list tags)) "&" ∧
  strings.Split (newTags tags) "&" = List.map tag_pair (map_to_list tags) ∧
  length (strings.Split (newTags tags) "&") = size tags ∧
  list_to_map <$> parse_tags (newTags tags) = Some tags.
Proof.
  cbv zeta.
  exact (newTags_round_trip {[ "a" := "1"; "b" := "x y" ]}
           (map_to_list {[ "a" := "1"; "b" := "x y" ]})
           sample_tags_not_empty (reflexivity _)).
Defined.

Lemma ignored_state_witness :
  let created := exec script_respond
                   (Create sample.configured
                      (resource.mkRequest sample.plan sample.plan)
                      (resource.newResponse None))
                   sample.no_state in
  let updated := exec script_respond
                   (Update sample.configured
                      (resource.mkRequest sample.plan sample.tracked)
                      (resource.newResponse (Some sample.tracked)))
                   sample.no_state in
  (trace created = [CallReadCurrent "ws-1" (inr ErrResourceNotFound)] ∧
   world_after created = sample.no_state ∧
   ∃ d, result created = resource.mkResponse (Some d) [] ∧
        Ignored d = types.BoolValue true ∧
        StateContentsSha256 d = types.StringNull ∧
        BucketContentsSha256 d = types.StringNull) ∧
  (trace updated = [CallReadCurrent "ws-1" (inr ErrResourceNotFound)] ∧
   world_after updated = sample.no_state ∧
   ∃ d, result updated = resource.mkResponse (Some d) [] ∧
        Ignored d = types.BoolValue true ∧
        StateContentsSha256 d = types.StringNull ∧
        BucketContentsSha256 d = types.StringNull).
Proof.
  cbv zeta. split.
  - pose proof (ignored_state_is_never_written script_respond Create
                  sample.configured
                  (resource.mkRequest sample.plan sample.plan)
                  None sample.no_state (or_introl eq_refl)) as H.
    cbv zeta in H. destruct H as [H _]. destruct (H eq_refl) as [_ Hrun].
    exact (Hrun eq_refl ErrResourceNotFound sample.no_state eq_refl eq_refl).
  - pose proof (ignored_state_is_never_written script_respond Update
                  sample.configured
                  (resource.mkRequest sample.plan sample.tracked)
                  (Some sample.tracked) sample.no_state (or_intror eq_refl))
      as H.
    cbv zeta in H. destruct H as [H _]. destruct (H eq_refl) as [_ Hrun].
    exact (Hrun eq_refl ErrResourceNotFound sample.no_state eq_refl eq_refl).
Defined.

Lemma write_then_digest_witness :
  let world := sample.holding sample.state_bytes sample.object_bytes in
  let created := exec script_respond
                   (Create sample.configured
                      (resource.mkRequest sample.plan sample.plan)
                      (resource.newResponse None))
                   world in
  let updated := exec script_respond
                   (Update sample.configured
                      (resource.mkRequest sample.plan sample.tracked)
                      (resource.newResponse (Some sample.tracked)))
                   world in
  (∃ input,
     s3.PutBody input = sample.state_bytes ∧
     s3.PutBucket input = "states" ∧
     s3.PutKey input = "statefiles/prod/terraform.tfstate" ∧
     trace created =
       [CallReadCurrent "ws-1"
          (inl (tfe.mkStateVersion "https://archivist.terraform.io/v1/object/1"));
        CallDownload "https://archivist.terraform.io/v1/object/1"
          (inl sample.state_bytes);
        CallPutObject input None] ∧
     world_after created = world ∧
     ∃ d, result created = resource.mkResponse (Some d) [] ∧
          StateContentsSha256 d =
            types.StringValue
              (hex.EncodeToString (sha256.Sum256 sample.state_bytes)) ∧
          BucketContentsSha256 d =
            types.StringValue
              (hex.EncodeToString (sha256.Sum256 sample.state_bytes))) ∧
  (∃ input,
     s3.PutBody input = sample.state_bytes ∧
     s3.PutBucket input = "states" ∧
     s3.PutKey input = "statefiles/prod/terraform.tfstate" ∧
     trace updated =
       [CallReadCurrent "ws-1"
          (inl (tfe.mkStateVersion "https://archivist.terraform.io/v1/object/1"));
        CallDownload "https://archivist.terraform.io/v1/object/1"
          (inl sample.state_bytes);
        CallPutObject input None] ∧
     world_after updated = world ∧
     ∃ d, result updated = resource.mkResponse (Some d) [] ∧
          StateContentsSha256 d =
            types.StringValue
              (hex.EncodeToString (sha256.Sum256 sample.state_bytes)) ∧
          BucketContentsSha256 d =
            types.StringValue
              (hex.EncodeToString (sha256.Sum256 sample.state_bytes))).
Proof.
  cbv zeta. split.
  - pose proof (write_then_digest script_respond Create
                  sample.configured
                  (resource.mkRequest sample.plan sample.plan)
                  None
                  (sample.holding sample.state_bytes sample.object_bytes)
                  sample.state_bytes (or_introl eq_refl)) as H.
    cbv zeta in H.
    destruct H as [_ Hrun]; [discriminate | discriminate | discriminate |].
    destruct (Hrun eq_refl
                (tfe.mkStateVersion "https://archivist.terraform.io/v1/object/1")
                (sample.holding sample.state_bytes sample.object_bytes)
                (sample.holding sample.state_bytes sample.object_bytes)
                eq_refl eq_refl)
      as (input & Hbody & Hbucket & Hkey & Hout).
    exists input. split; [exact Hbody |]. split; [exact Hbucket |].
    split; [exact Hkey |]. exact Hout.
  - pose proof (write_then_digest script_respond Update
                  sample.configured
                  (resource.mkRequest sample.plan sample.tracked)
                  (Some sample.tracked)
                  (sample.holding sample.state_bytes sample.object_bytes)
                  sample.state_bytes (or_intror eq_refl)) as H.
    cbv zeta in H.
    destruct H as [_ Hrun]; [discriminate | discriminate | discriminate |].
    destruct (Hrun eq_refl
                (tfe.mkStateVersion "https://archivist.terraform.io/v1/object/1")
                (sample.holding sample.state_bytes sample.object_bytes)
                (sample.holding sample.state_bytes sample.object_bytes)
                eq_refl eq_refl)
      as (input & Hbody & Hbucket & Hkey & Hout).
    exists input. split; [exact Hbody |]. split; [exact Hbucket |].
    split; [exact Hkey |]. exact Hout.
Defined.

Lemma sample_contents_do_not_collide :
  sha256.Sum256 sample.state_bytes = sha256.Sum256 sample.object_bytes ->
  sample.state_bytes = sample.object_bytes.
Proof. intros H. vm_compute in H. discriminate H. Qed.

Lemma Read_reports_both_digests_witness :
  let out := exec script_respond
               (Read sample.configured
                  (resource.mkRequest sample.tracked sample.tracked)
                  (resource.newResponse (Some sample.tracked)))
               (sample.holding sample.state_bytes sample.object_bytes) in
  (trace out =
     [CallReadCurrent "ws-1"
        (inl (tfe.mkStateVersion "https://archivist.terraform.io/v1/object/1"));
      CallDownload "https://archivist.terraform.io/v1/object/1"
        (inl sample.state_bytes);
      CallGetObject
        (s3.mkGetObjectInput "states" "statefiles/prod/terraform.tfstate")
        (inl (s3.mkGetObjectOutput sample.object_bytes None))] ∧
   world_after out = sample.holding sample.state_bytes sample.object_bytes ∧
   ∃ d, result out = resource.mkResponse (Some d) [] ∧
        StateContentsSha256 d =
          types.StringValue
            (hex.EncodeToString (sha256.Sum256 sample.state_bytes)) ∧
        BucketContentsSha256 d =
          types.StringValue
            (hex.EncodeToString (sha256.Sum256 sample.object_bytes))) ∧
  (∃ d, resource.State (result out) = Some d ∧
        puts (trace out) = [] ∧
        deletes (trace out) = [] ∧
        StateContentsSha256 d <> BucketContentsSha256 d).
Proof.
  cbv zeta.
  pose proof (Read_reports_both_digests script_respond
                sample.configured
                (resource.mkRequest sample.tracked sample.tracked)
                (Some sample.tracked)
                (sample.holding sample.state_bytes sample.object_bytes)
                sample.state_bytes sample.object_bytes) as H.
  cbv zeta in H. destruct H as [Htrace Hrun]. split.
  - exact (Hrun eq_refl
             (tfe.mkStateVersion "https://archivist.terraform.io/v1/object/1")
             (sample.holding sample.state_bytes sample.object_bytes)
             (sample.holding sample.state_bytes sample.object_bytes)
             (sample.holding sample.state_bytes sample.object_bytes)
             eq_refl eq_refl eq_refl).
  - destruct Htrace as (d & Hd & _ & _ & Hputs & Hdeletes & _ & Hdiffer).
    + exists "https://archivist.terraform.io/v1/object/1". in_computed_trace.
    + exists (s3.mkGetObjectInput "states" "statefiles/prod/terraform.tfstate").
      in_computed_trace.
    + exists d. split; [exact Hd |]. split; [exact Hputs |].
      split; [exact Hdeletes |].
      apply Hdiffer; [discriminate | exact sample_contents_do_not_collide].
Defined.

Lemma Delete_honours_soft_delete_witness :
  let r := mkS3ObjectResource true (Some tfe.NewClient) (Some s3.NewFromConfig) in
  let out := exec script_respond
               (Delete r (resource.mkRequest sample.tracked sample.tracked)
                  (resource.newResponse (Some sample.tracked)))
               (sample.holding sample.state_bytes sample.object_bytes) in
  (effectiveSoftDelete r sample.tracked = true ->
     deletes (trace out) = [] ∧
     length (diag.Warnings (resource.Diagnostics (result out))) = 1%nat ∧
     resource.HasError (result out) = false) ∧
  (effectiveSoftDelete r sample.tracked = false ->
     (∃ res, deletes (trace out) =
               [CallDeleteObject
                  (s3.mkDeleteObjectInput
                     (types.ValueString (Bucket sample.tracked))
                     (types.ValueString (Key sample.tracked)))
                  res]) ∧
     diag.Warnings (resource.Diagnostics (result out)) = []).
Proof.
  cbv zeta.
  apply (Delete_honours_soft_delete script_respond
           (mkS3ObjectResource true (Some tfe.NewClient) (Some s3.NewFromConfig))
           (resource.mkRequest sample.tracked sample.tracked)
           (Some sample.tracked)
           (sample.holding sample.state_bytes sample.object_bytes)).
  reflexivity.
Defined.

(** ** Where the code departs from the claims *)

(** C2 as stated fails: the state source returns the non-empty bytes
    [sample.state_bytes], but the plan's bucket is the empty string, so
    [validate] rejects the write: no put is issued and no record is
    returned. *)
Lemma Create_with_empty_bucket_writes_nothing :
  let out := exec script_respond
               (Create sample.configured
                  (resource.mkRequest sample.no_bucket sample.no_bucket)
                  (resource.newResponse None))
               (sample.holding sample.state_bytes sample.object_bytes) in
  state_source_returns sample.state_bytes (trace out) ∧
  sample.state_bytes <> [] ∧
  puts (trace out) = [] ∧
  resource.State (result out) = None ∧
  resource.Diagnostics (result out) =
    [errorDiag "putObjectOptions" "empty bucket"].
Proof.
  cbv zeta. split; [| split; [| split; [| split]]].
  - exists "https://archivist.terraform.io/v1/object/1". in_computed_trace.
  - discriminate.
  - vm_compute. reflexivity.
  - vm_compute. reflexivity.
  - vm_compute. reflexivity.
Qed.

(** C4 fails on Update: the plan moves the tracked record from bucket
    [states] to bucket [archive]; Update succeeds and returns the planned id,
    which still names the old bucket. *)
Theorem Update_returns_stale_id :
  let out := exec script_respond
               (Update sample.configured
                  (resource.mkRequest sample.moved sample.tracked)
                  (resource.newResponse (Some sample.tracked)))
               (sample.holding sample.state_bytes sample.object_bytes) in
  resource.HasError (result out) = false ∧
  ∃ d, resource.State (result out) = Some d ∧
       Bucket d = types.StringValue "archive" ∧
       Id d = types.StringValue "ws-1/states/statefiles/prod/terraform.tfstate" ∧
       newS3ObjectResourceID d =
         types.StringValue "ws-1/archive/statefiles/prod/terraform.tfstate".
Proof.
  cbv zeta. split; [vm_compute; reflexivity |].
  eexists. split; [vm_compute; reflexivity |].
  repeat split; vm_compute; reflexivity.
Qed.

(** C5 fails on Create: the plan carries the tag [MyTag = MyValue], and
    the put that Create issues has no tag string, while the KMS key is passed
    on; Update, given the same plan, sends the tag string. *)
Theorem Create_drops_tags :
  let req := resource.mkRequest sample.plan sample.tracked in
  let w := sample.holding sample.state_bytes sample.object_bytes in
  let created := exec script_respond
                   (Create sample.configured req (resource.newResponse None)) w in
  let updated := exec script_respond
                   (Update sample.configured req
                      (resource.newResponse (Some sample.tracked))) w in
  (ElementsAs (Tags sample.plan)).1 !! "MyTag" = Some "MyValue" ∧
  (∃ input, puts (trace created) = [CallPutObject input None] ∧
            s3.SSEKMSKeyId input = Some "alias/tfsync" ∧
            s3.Tagging input = None) ∧
  (∃ input, puts (trace updated) = [CallPutObject input None] ∧
            s3.SSEKMSKeyId input = Some "alias/tfsync" ∧
            s3.Tagging input = Some "MyTag=MyValue").
Proof.
  cbv zeta. split; [vm_compute; reflexivity |].
  split; eexists; (split; [vm_compute; reflexivity |]); split; reflexivity.
Qed.

(** C6 as stated fails: on a resource that was never configured, with
    the provider-wide soft delete on, Delete stops at the validation: it
    returns an error and no warning. *)
Lemma Delete_on_unconfigured_resource :
  let out := exec script_respond
               (Delete sample.unconfigured
                  (resource.mkRequest sample.tracked sample.tracked)
                  (resource.newResponse (Some sample.tracked)))
               (sample.holding sample.state_bytes sample.object_bytes) in
  effectiveSoftDelete sample.unconfigured sample.tracked = true ∧
  diag.Warnings (resource.Diagnostics (result out)) = [] ∧
  resource.Diagnostics (result out) = [errorDiag "provider" "nil s3 client"] ∧
  trace out = [].
Proof. cbv zeta. repeat split; vm_compute; reflexivity. Qed.


(** ** The pure functions *)

Lemma all_chars_app p (s t : string) :
  all_chars p (s +:+ t) = all_chars p s && all_chars p t.
Proof.
  induction s as [| c s IH]; rewrite ?append_nil, ?append_cons; [done |].
  cbn [all_chars]. by rewrite IH, andb_assoc.
Qed.

Lemma QueryEscape_tag_chars s : all_chars tag_char (url.QueryEscape s) = true.
Proof.
  induction s as [| c s IH]; [done |].
  rewrite QueryEscape_cons, all_chars_app, IH, andb_true_r.
  destruct c as [[] [] [] [] [] [] [] []]; reflexivity.
Qed.

(** X15: whatever the tags and the order [range] visits them in, the
    tag string is made of unreserved characters, plus and percent signs,
    and the two separators only: every other character of a key or a value
    is escaped. *)
Theorem newTags_characters (entries : list (string * string)) :
  all_chars tag_char (newTags_range entries) = true.
Proof.
  unfold newTags_range.
  induction entries as [| kv [| kv' entries] IH]; [done | |].
  - cbn [List.map strings.Join]. unfold tag_pair.
    by rewrite !all_chars_app, !QueryEscape_tag_chars.
  - change (strings.Join (List.map tag_pair (kv :: kv' :: entries)) "&")
      with (tag_pair kv +:+ "&" +:+
            strings.Join (List.map tag_pair (kv' :: entries)) "&").
    rewrite !all_chars_app, IH. unfold tag_pair.
    by rewrite !all_chars_app, !QueryEscape_tag_chars.
Qed.

Lemma append_sep_inj sep (a a' b b' : string) :
  free_of sep a -> free_of sep a' ->
  a +:+ String sep b = a' +:+ String sep b' -> a = a' ∧ b = b'.
Proof.
  revert a'. induction a as [| c a IH]; intros [| c' a'];
    rewrite ?append_nil, ?append_cons; cbn [free_of].
  - by intros _ _ [= ->].
  - intros _ [Hc' _] [= Hc _]. by destruct Hc'.
  - intros [Hc _] _ [= Hc' _]. by destruct Hc.
  - intros [_ Ha] [_ Ha'] [= -> Hrest].
    destruct (IH a' Ha Ha' Hrest) as [-> ->]. done.
Qed.

(** X16: the id names the object.  Two records whose workspace ids
    and buckets contain no slash, and whose ids as
    [newS3ObjectResourceID] computes them are equal, have the same
    workspace id, bucket and key. *)
Theorem newS3ObjectResourceID_names_the_object (d d' : S3ObjectResourceModel) :
  free_of "/" (types.ValueString (WorkspaceId d)) ->
  free_of "/" (types.ValueString (WorkspaceId d')) ->
  free_of "/" (types.ValueString (Bucket d)) ->
  free_of "/" (types.ValueString (Bucket d')) ->
  newS3ObjectResourceID d = newS3ObjectResourceID d' ->
  types.ValueString (WorkspaceId d) = types.ValueString (WorkspaceId d') ∧
  types.ValueString (Bucket d) = types.ValueString (Bucket d') ∧
  types.ValueString (Key d) = types.ValueString (Key d').
Proof.
  intros Hw Hw' Hb Hb' [= Hid].
  apply append_sep_inj in Hid as [Hws Hrest]; [| done | done].
  apply append_sep_inj in Hrest as [Hbucket Hkey]; done.
Qed.

(** X17: [validate] reports every missing field, one error each, in
    the order bucket, key, contents; it reports nothing exactly when all
    three are present. *)
Theorem validate_lists_every_missing_field (o : putObjectOptions) :
  validate (Some o) =
    (if decide (optBucket o = "")
     then [errorDiag "putObjectOptions" "empty bucket"] else []) ++
    (if decide (optKey o = "")
     then [errorDiag "putObjectOptions" "empty key"] else []) ++
    (if decide (optContents o = [])
     then [errorDiag "putObjectOptions" "empty contents"] else []) ∧
  (validate (Some o) = [] ↔ writable o).
Proof.
  unfold validate, writable. cbv zeta.
  destruct (decide (optBucket o = "")) as [Hb | Hb],
           (decide (optKey o = "")) as [Hk | Hk],
           (optContents o) as [| b contents];
    cbn; (split; [reflexivity |]); split; try done; try tauto;
    intros (? & ? & ?); done.
Qed.

(** X18: [Configure].  Without provider data the resource stays as
    it was, and so does every handler's refusal to run on it; provider data
    of another type is reported as an error and changes nothing; a
    [ResourceConfigureData] replaces the soft-delete default and both
    clients, after which the validation passes exactly when the data holds
    both clients. *)
Theorem Configure_sets_what_validation_checks r providerData diags :
  let r' := (Configure r providerData diags).1 in
  let diags' := (Configure r providerData diags).2 in
  match providerData with
  | ProviderDataNil => r' = r ∧ diags' = diags
  | ProviderDataOther _ =>
      r' = r ∧ diag.HasError diags' = true ∧
      (length diags <= length diags' <= length diags + 1)%nat
  | ProviderDataConfigure data =>
      diags' = diags ∧
      (∀ d, effectiveSoftDelete r' d =
            cfg_softDelete data || types.ValueBool (SoftDelete d)) ∧
      (validateS3ObjectResource (Some r') = [] ↔
       cfg_tfeClient data <> None ∧ cfg_s3Client data <> None)
  end.
Proof.
  cbv zeta. destruct providerData as [| data | typeName]; cbn.
  - done.
  - split; [done |]. split; [done |].
    destruct data as [sd [tc |] [sc |]]; cbn; split; try done;
      intros [? ?]; done.
  - split; [done |]. unfold diag.AddError. cbn [diag.Append].
    destruct (diag.Contains diags _) eqn:Hin.
    + split; [| lia]. unfold diag.Contains in Hin.
      apply existsb_exists in Hin as (d & Hd & Heq).
      apply bool_decide_eq_true in Heq. subst d.
      apply existsb_exists. eexists. split; [exact Hd | reflexivity].
    + rewrite length_app. cbn. split; [| lia].
      unfold diag.HasError. rewrite existsb_app. cbn. apply orb_true_r.
Qed.

(** ** The handlers in a world with an object store *)

#[local] Arguments getStateFile : simpl never.
#[local] Arguments getS3ObjectContents : simpl never.
#[local] Arguments putS3ObjectContents : simpl never.
#[local] Arguments sha256Contents : simpl never.
#[local] Arguments newS3ObjectResourceID : simpl never.

Lemma cloud_getStateFile client ws ignoreEmpty ver S (w : Cloud) :
  cloud_current w ws = inl ver ->
  cloud_download w (tfe.DownloadURL ver) = inl S ->
  exec cloud_respond (getStateFile client ws ignoreEmpty) w =
    ((S, [], false),
     [CallReadCurrent ws (inl ver); CallDownload (tfe.DownloadURL ver) (inl S)],
     w).
Proof.
  intros Hver HS. unfold getStateFile. cbn. rewrite Hver. cbn.
  rewrite HS. reflexivity.
Qed.

Lemma cloud_putS3ObjectContents client o (w : Cloud) :
  writable o ->
  exec cloud_respond (putS3ObjectContents client (Some o)) w =
    ([], [CallPutObject (putObjectInput o) None],
     mkCloud (cloud_current w) (cloud_download w)
       (<[(optBucket o, optKey o) := optContents o]> (cloud_objects w))).
Proof.
  intros Hw. unfold putS3ObjectContents. rewrite (validate_writable o Hw).
  reflexivity.
Qed.

Lemma cloud_getS3ObjectContents client bucket key T (w : Cloud) :
  cloud_objects w !! (bucket, key) = Some T ->
  exec cloud_respond (getS3ObjectContents client bucket key) w =
    ((T, []),
     [CallGetObject (s3.mkGetObjectInput bucket key)
        (inl (s3.mkGetObjectOutput T None))],
     w).
Proof.
  intros HT. unfold getS3ObjectContents. cbn. rewrite HT. reflexivity.
Qed.

(** X19: Create and Update followed by Read.  Where the state source
    holds the non-empty state [S] and the store takes every put, Create and
    Update leave [S] in the store at the record's bucket and key and return a
    record without diagnostics; Read on that record, in the world they left,
    changes nothing in the store and reports no drift: it returns the
    record with the id recomputed, which after Create is the record itself,
    and equal digests. *)
Theorem Read_after_a_write_reports_no_drift h r plan prior st idle ver S
    (w : Cloud) :
  h = OnCreate ∨ h = OnUpdate ->
  validateS3ObjectResource (Some r) = [] ->
  cloud_current w (types.ValueString (WorkspaceId plan)) = inl ver ->
  cloud_download w (tfe.DownloadURL ver) = inl S ->
  S <> [] ->
  types.ValueString (Bucket plan) <> "" ->
  types.ValueString (Key plan) <> "" ->
  let written := exec cloud_respond
                   (handle h r (resource.mkRequest plan prior)
                      (resource.newResponse st)) w in
  ∃ d, result written = resource.mkResponse (Some d) [] ∧
       cloud_objects (world_after written)
         !! (types.ValueString (Bucket plan), types.ValueString (Key plan)) =
         Some S ∧
       let read := exec cloud_respond
                     (handle OnRead r (resource.mkRequest idle d)
                        (resource.newResponse (Some d)))
                     (world_after written) in
       result read =
         resource.mkResponse (Some (set_Id (newS3ObjectResourceID d) d)) [] ∧
       (h = OnCreate -> set_Id (newS3ObjectResourceID d) d = d) ∧
       StateContentsSha256 d = BucketContentsSha256 d ∧
       world_after read = world_after written.
Proof.
  intros Hh Hcfg Hver HS HSne Hb Hk. cbv zeta.
  destruct r as [sd [tc |] [sc |]]; cbn in Hcfg; try discriminate Hcfg.
  assert (writable (put_options plan S (sent_tags h plan))) as Hw.
  { repeat split; done. }
  destruct Hh as [-> | ->]; cbn [handle].
  - unfold Create. cbn.
    rewrite exec_bind, (cloud_getStateFile _ _ _ ver S w Hver HS). cbn.
    rewrite exec_bind, (cloud_putS3ObjectContents _ _ _ Hw). cbn.
    eexists. split; [reflexivity |]. split; [apply lookup_insert_eq |].
    unfold Read. cbn.
    rewrite exec_bind.
    erewrite cloud_getStateFile; [| cbn; exact Hver | cbn; exact HS]. cbn.
    rewrite exec_bind.
    erewrite cloud_getS3ObjectContents; [| cbn; apply lookup_insert_eq].
    cbn. repeat split.
  - unfold Update. cbn.
    destruct (ElementsAs (Tags plan)) as [tags dt] eqn:Etags.
    pose proof (ElementsAs_no_diagnostics _ _ _ Etags). subst dt. cbn.
    assert (tags = sent_tags OnUpdate plan) as ->.
    { cbn. by rewrite Etags. }
    rewrite exec_bind, (cloud_getStateFile _ _ _ ver S w Hver HS). cbn.
    rewrite exec_bind, (cloud_putS3ObjectContents _ _ _ Hw). cbn.
    eexists. split; [reflexivity |]. split; [apply lookup_insert_eq |].
    unfold Read. cbn.
    rewrite exec_bind.
    erewrite cloud_getStateFile; [| cbn; exact Hver | cbn; exact HS]. cbn.
    rewrite exec_bind.
    erewrite cloud_getS3ObjectContents; [| cbn; apply lookup_insert_eq].
    cbn. repeat split. discriminate.
Qed.

(** The world a run ends in is the one its calls leave. *)
Lemma cloud_world_after {A : Type} (p : Prog A) (w : Cloud) :
  world_after (exec cloud_respond p w) =
  fold_left (fun w c => cloud_effect c w) (trace (exec cloud_respond p w)) w.
Proof.
  revert w. induction p as [a | R e k IH]; intros w; [reflexivity |].
  destruct e; cbn.
  - specialize (IH (cloud_current w workspaceID) w).
    destruct (exec cloud_respond (k _) w) as [[a tr] w2]. exact IH.
  - specialize (IH (cloud_download w u) w).
    destruct (exec cloud_respond (k _) w) as [[a tr] w2]. exact IH.
  - destruct (cloud_objects w !! _) as [contents |]; cbn.
    + specialize (IH (inl (s3.mkGetObjectOutput contents None)) w).
      destruct (exec cloud_respond (k _) w) as [[a tr] w2]. exact IH.
    + specialize (IH (inr (errorString "NoSuchKey")) w).
      destruct (exec cloud_respond (k _) w) as [[a tr] w2]. exact IH.
  - match goal with
    | |- context [exec cloud_respond (k None) ?w1] => specialize (IH None w1);
        destruct (exec cloud_respond (k None) w1) as [[a tr] w2]
    end.
    exact IH.
  - match goal with
    | |- context [exec cloud_respond (k None) ?w1] => specialize (IH None w1);
        destruct (exec cloud_respond (k None) w1) as [[a tr] w2]
    end.
    exact IH.
Qed.

(** X20: no handler touches another object.  In a world with an
    object store, whatever the handler and its outcome, every object other
    than the one at the record's bucket and key is afterwards what it was
    before, and Read leaves the whole world as it was. *)
Theorem handlers_touch_only_their_object h r req st (w : Cloud) bucket key :
  (bucket, key) <>
    (types.ValueString (Bucket (decoded h req)),
     types.ValueString (Key (decoded h req))) ->
  let out := exec cloud_respond (handle h r req (resource.newResponse st)) w in
  cloud_objects (world_after out) !! (bucket, key) =
    cloud_objects w !! (bucket, key) ∧
  (h = OnRead -> world_after out = w).
Proof.
  intros Hother. cbv zeta. rewrite cloud_world_after.
  destruct (exec cloud_respond _ w) as [[resp tr] w'] eqn:E.
  cbn [trace fst snd].
  destruct (fetches h) eqn:Hfetch.
  - destruct (decide (validateS3ObjectResource (Some r) = [])) as [Hcfg | Hcfg].
    + pose proof (sync_cases _ _ _ _ _ _ _ _ _ Hfetch E Hcfg) as Hcase.
      inversion Hcase; subst; cbn; try done.
      all: split; [| done].
      all: by rewrite lookup_insert_ne.
    + by destruct (unconfigured_cases _ _ _ _ _ _ _ _ _ E Hcfg) as [-> ->].
  - destruct h; try discriminate Hfetch. cbn [handle] in E.
    destruct (Delete_frame _ _ _ _ _ _ _ _ E) as (_ & _ & [-> | ([err |] & -> & _)]);
      cbn; try done.
    split; [| done]. by rewrite lookup_delete_ne.
Qed.

(** X21: Delete and the store.  On a configured resource, in a world
    whose store takes the delete, the object at the record's bucket and key
    is gone afterwards when soft delete is off, and the store is what it was
    when soft delete is on; neither case reports an error. *)
Theorem Delete_removes_the_object_unless_soft r req st (w : Cloud) :
  validateS3ObjectResource (Some r) = [] ->
  let data := resource.PriorState req in
  let out := exec cloud_respond
               (handle OnDelete r req (resource.newResponse st)) w in
  cloud_objects (world_after out) =
    (if effectiveSoftDelete r data then cloud_objects w
     else delete (types.ValueString (Bucket data), types.ValueString (Key data))
            (cloud_objects w)) ∧
  resource.HasError (result out) = false.
Proof.
  intros Hcfg. cbv zeta. cbn [handle]. unfold Delete, effectiveSoftDelete.
  destruct r as [sd [tc |] [sc |]]; cbn in *; try discriminate Hcfg.
  destruct (sd || types.ValueBool (SoftDelete (resource.PriorState req)));
    cbn; done.
Qed.

(** ** The further properties on sample inputs *)

Lemma handlers_need_both_clients_witness :
  let out := exec script_respond
               (handle OnRead sample.unconfigured
                  (resource.mkRequest sample.plan sample.tracked)
                  (resource.newResponse (Some sample.tracked)))
               (sample.holding sample.state_bytes sample.object_bytes) in
  trace out = [] ∧
  resource.State (result out) = Some sample.tracked ∧
  resource.Diagnostics (result out) = [errorDiag "provider" "nil s3 client"].
Proof.
  exact (handlers_need_both_clients script_respond OnRead sample.unconfigured
           (resource.mkRequest sample.plan sample.tracked)
           (Some sample.tracked)
           (sample.holding sample.state_bytes sample.object_bytes)
           (or_introl eq_refl)).
Defined.

Lemma source_failure_witness :
  let out := exec script_respond
               (handle OnCreate sample.configured
                  (resource.mkRequest sample.plan sample.plan)
                  (resource.newResponse None))
               failing_download in
  resource.HasError (result out) = true ∧
  length (resource.Diagnostics (result out)) = 1%nat ∧
  resource.State (result out) = None ∧
  s3_calls (trace out) = [].
Proof.
  cbv zeta.
  apply (source_failure_stops_before_the_store script_respond OnCreate
           sample.configured (resource.mkRequest sample.plan sample.plan)
           None failing_download
           (CallDownload "https://archivist.terraform.io/v1/object/1"
              (inr (errorString "503 Service Unavailable")))
           (errorString "503 Service Unavailable"));
    [reflexivity | in_computed_trace | reflexivity | reflexivity | reflexivity].
Defined.

Lemma Read_ignored_witness :
  let out := exec script_respond
               (handle OnRead sample.configured
                  (resource.mkRequest sample.plan sample.tracked)
                  (resource.newResponse (Some sample.tracked)))
               sample.no_state in
  (∃ d, result out = resource.mkResponse (Some d) [] ∧
        Ignored d = types.BoolValue true ∧
        StateContentsSha256 d = types.StringNull ∧
        BucketContentsSha256 d = types.StringNull ∧
        Id d = types.StringValue "ws-1/states/statefiles/prod/terraform.tfstate") ∧
  (∃ err, trace out = [CallReadCurrent "ws-1" (inr err)]) ∧
  gets (trace out) = [].
Proof.
  cbv zeta.
  apply (Read_ignored_skips_the_store script_respond sample.configured
           (resource.mkRequest sample.plan sample.tracked)
           (Some sample.tracked) sample.no_state).
  - exists "ws-1", ErrResourceNotFound. split; [in_computed_trace | reflexivity].
  - reflexivity.
Defined.

Lemma Read_store_failure_witness :
  let out := exec script_respond
               (handle OnRead sample.configured
                  (resource.mkRequest sample.plan sample.tracked)
                  (resource.newResponse (Some sample.tracked)))
               (failing_store sample.state_bytes) in
  resource.Diagnostics (result out) =
    [errorDiag "s3 client" "failed to get object: AccessDenied"] ∧
  resource.State (result out) = Some sample.tracked ∧
  puts (trace out) = [] ∧
  deletes (trace out) = [].
Proof.
  cbv zeta.
  apply (Read_surfaces_store_failure script_respond sample.configured
           (resource.mkRequest sample.plan sample.tracked)
           (Some sample.tracked) (failing_store sample.state_bytes)
           (s3.mkGetObjectInput "states" "statefiles/prod/terraform.tfstate")
           (inr (errorString "AccessDenied")) (errorString "AccessDenied"));
    [in_computed_trace | reflexivity].
Defined.

Lemma fetch_order_witness :
  let tr := trace (exec script_respond
                     (handle OnUpdate sample.configured
                        (resource.mkRequest sample.plan sample.tracked)
                        (resource.newResponse (Some sample.tracked)))
                     (sample.holding sample.state_bytes sample.object_bytes)) in
  tr = tfe_calls tr ++ s3_calls tr ∧
  (length (tfe_calls tr) <= 2)%nat ∧
  (length (s3_calls tr) <= 1)%nat ∧
  deletes tr = [] ∧
  gets tr = [].
Proof.
  cbv zeta.
  destruct (fetch_comes_before_the_store script_respond OnUpdate
              sample.configured
              (resource.mkRequest sample.plan sample.tracked)
              (Some sample.tracked)
              (sample.holding sample.state_bytes sample.object_bytes)
              eq_refl)
    as (Horder & _ & _ & Htfe & Hs3 & _ & Hdel & Hget & _).
  repeat split; assumption.
Defined.

Lemma well_formed_put_witness :
  let out := exec script_respond
               (handle OnCreate sample.configured
                  (resource.mkRequest sample.plan sample.plan)
                  (resource.newResponse None))
               (sample.holding sample.state_bytes sample.object_bytes) in
  let input := putObjectInput (put_options sample.plan sample.state_bytes ∅) in
  state_source_returns (s3.PutBody input) (trace out) ∧
  s3.PutBody input <> [] ∧
  s3.PutBucket input = "states" ∧
  s3.PutBucket input <> "" ∧
  s3.PutKey input = "statefiles/prod/terraform.tfstate" ∧
  s3.PutKey input <> "" ∧
  s3.ContentLength input = 2%Z ∧
  s3.ContentType input = "application/json" ∧
  s3.PutChecksumAlgorithm input = s3.ChecksumAlgorithmSha256 ∧
  s3.PutServerSideEncryption input = Some s3.ServerSideEncryptionAwsKms ∧
  s3.SSEKMSKeyId input = Some "alias/tfsync".
Proof.
  cbv zeta.
  apply (puts_are_well_formed script_respond OnCreate sample.configured
           (resource.mkRequest sample.plan sample.plan) None
           (sample.holding sample.state_bytes sample.object_bytes)
           (putObjectInput (put_options sample.plan sample.state_bytes ∅))
           None).
  in_computed_trace.
Defined.

Lemma state_is_set_witness :
  let out := exec script_respond
               (handle OnCreate sample.configured
                  (resource.mkRequest sample.plan sample.plan)
                  (resource.newResponse None))
               (failing_store sample.state_bytes) in
  if resource.HasError (result out)
  then resource.State (result out) = None
  else resource.Diagnostics (result out) = [] ∧
       ∃ d, resource.State (result out) = Some d ∧
            same_configuration d sample.plan.
Proof.
  exact (state_is_set_unless_an_error script_respond OnCreate sample.configured
           (resource.mkRequest sample.plan sample.plan) None
           (failing_store sample.state_bytes) eq_refl).
Defined.

Lemma returned_digests_witness :
  let out := exec script_respond
               (handle OnRead sample.configured
                  (resource.mkRequest sample.plan sample.tracked)
                  (resource.newResponse (Some sample.tracked)))
               (sample.holding sample.state_bytes sample.object_bytes) in
  ∃ d, resource.State (result out) = Some d ∧
       ((Ignored d = types.BoolValue true ∧
         StateContentsSha256 d = types.StringNull ∧
         BucketContentsSha256 d = types.StringNull) ∨
        (Ignored d = types.BoolValue false ∧
         ∃ s t, StateContentsSha256 d = types.StringValue s ∧
                BucketContentsSha256 d = types.StringValue t ∧
                is_digest s ∧ is_digest t ∧ True)).
Proof.
  cbv zeta.
  apply (returned_digests_go_together script_respond OnRead sample.configured
           (resource.mkRequest sample.plan sample.tracked)
           (Some sample.tracked)
           (sample.holding sample.state_bytes sample.object_bytes) eq_refl).
  vm_compute. reflexivity.
Defined.

Lemma returned_id_witness :
  let out := exec script_respond
               (handle OnCreate sample.configured
                  (resource.mkRequest sample.plan sample.plan)
                  (resource.newResponse None))
               (sample.holding sample.state_bytes sample.object_bytes) in
  ∃ d, resource.State (result out) = Some d ∧
       Id d = types.StringValue
                (types.ValueString (WorkspaceId d) +:+ "/" +:+
                 types.ValueString (Bucket d) +:+ "/" +:+
                 types.ValueString (Key d)).
Proof.
  cbv zeta.
  apply (Create_and_Read_return_the_id script_respond OnCreate sample.configured
           (resource.mkRequest sample.plan sample.plan) None
           (sample.holding sample.state_bytes sample.object_bytes)
           (or_introl eq_refl)).
  vm_compute. reflexivity.
Defined.

Lemma Update_tagging_witness :
  let input := putObjectInput
                 (put_options sample.plan sample.state_bytes
                    (sent_tags OnUpdate sample.plan)) in
  ∃ s, s3.Tagging input = Some s ∧
       (ElementsAs (Tags sample.plan)).1 <> ∅ ∧
       list_to_map <$> parse_tags s = Some (ElementsAs (Tags sample.plan)).1.
Proof.
  cbv zeta.
  pose proof (Update_tagging_decodes_to_the_plan script_respond
                sample.configured
                (resource.mkRequest sample.plan sample.tracked)
                (Some sample.tracked)
                (sample.holding sample.state_bytes sample.object_bytes)
                (putObjectInput
                   (put_options sample.plan sample.state_bytes
                      (sent_tags OnUpdate sample.plan)))
                None) as H.
  cbv zeta in H.
  eexists. split; [vm_compute; reflexivity |].
  apply H. in_computed_trace.
Defined.

Lemma Delete_failure_witness :
  let out := exec script_respond
               (handle OnDelete sample.configured
                  (resource.mkRequest sample.plan sample.tracked)
                  (resource.newResponse (Some sample.tracked)))
               (failing_store sample.state_bytes) in
  ∃ res,
    trace out =
      [CallDeleteObject
         (s3.mkDeleteObjectInput "states" "statefiles/prod/terraform.tfstate")
         res] ∧
    resource.Diagnostics (result out) =
      match res with
      | None => []
      | Some err =>
          [errorDiag "s3 client"
             ("failed to delete s3 object: " +:+ errors.Error err)]
      end.
Proof.
  exact (Delete_reports_what_the_store_said script_respond sample.configured
           (resource.mkRequest sample.plan sample.tracked)
           (Some sample.tracked) (failing_store sample.state_bytes) eq_refl).
Defined.


Lemma names_the_object_witness :
  types.ValueString (WorkspaceId sample.plan) =
    types.ValueString (WorkspaceId sample.tracked) ∧
  types.ValueString (Bucket sample.plan) =
    types.ValueString (Bucket sample.tracked) ∧
  types.ValueString (Key sample.plan) =
    types.ValueString (Key sample.tracked).
Proof.
  apply (newS3ObjectResourceID_names_the_object sample.plan sample.tracked);
    try reflexivity; cbn; repeat split; discriminate.
Defined.

Lemma no_drift_witness :
  let written := exec cloud_respond
                   (handle OnCreate sample.configured
                      (resource.mkRequest sample.plan sample.plan)
                      (resource.newResponse None))
                   sample_cloud in
  ∃ d, result written = resource.mkResponse (Some d) [] ∧
       cloud_objects (world_after written)
         !! ("states", "statefiles/prod/terraform.tfstate") =
         Some sample.state_bytes ∧
       let read := exec cloud_respond
                     (handle OnRead sample.configured
                        (resource.mkRequest sample.plan d)
                        (resource.newResponse (Some d)))
                     (world_after written) in
       result read =
         resource.mkResponse (Some (set_Id (newS3ObjectResourceID d) d)) [] ∧
       (OnCreate = OnCreate -> set_Id (newS3ObjectResourceID d) d = d) ∧
       StateContentsSha256 d = BucketContentsSha256 d ∧
       world_after read = world_after written.
Proof.
  cbv zeta.
  apply (Read_after_a_write_reports_no_drift OnCreate sample.configured
           sample.plan sample.plan None sample.plan
           (tfe.mkStateVersion "https://archivist.terraform.io/v1/object/1")
           sample.state_bytes sample_cloud);
    try reflexivity; try discriminate.
  by left.
Defined.

Lemma touch_only_their_object_witness :
  let out := exec cloud_respond
               (handle OnCreate sample.configured
                  (resource.mkRequest sample.plan sample.plan)
                  (resource.newResponse None))
               sample_cloud in
  cloud_objects (world_after out) !! ("states", "other.tfstate") =
    cloud_objects sample_cloud !! ("states", "other.tfstate") ∧
  (OnCreate = OnRead -> world_after out = sample_cloud).
Proof.
  cbv zeta.
  apply (handlers_touch_only_their_object OnCreate sample.configured
           (resource.mkRequest sample.plan sample.plan) None sample_cloud
           "states" "other.tfstate").
  intros H. discriminate H.
Defined.

Lemma Delete_removes_the_object_witness :
  let out := exec cloud_respond
               (handle OnDelete sample.configured
                  (resource.mkRequest sample.plan sample.tracked)
                  (resource.newResponse (Some sample.tracked)))
               sample_cloud in
  cloud_objects (world_after out) =
    delete ("states", "statefiles/prod/terraform.tfstate")
      (cloud_objects sample_cloud) ∧
  resource.HasError (result out) = false.
Proof.
  exact (Delete_removes_the_object_unless_soft sample.configured
           (resource.mkRequest sample.plan sample.tracked)
           (Some sample.tracked) sample_cloud eq_refl).
Defined.
